(** * Client-side authentication flow: Register, Login and Dashboard pages

    A shallow embedding of the three React pages under
    [frontend/src/pages] (Register.jsx, Login.jsx, Dashboard.jsx) and the
    properties of their handlers.

    Conventions of the embedding:
    - a JavaScript string is the list of its UTF-16 code units ([list N]);
    - a primitive JavaScript value is a [jsval]; truthiness, [||], [!==] and
      the string conversion of [localStorage.setItem] are written out;
    - a React component is a record of its [useState] cells; a handler is a
      function from the state (and the browser world it touches) to the new
      state, together with the list of calls it makes on the API client;
    - an [await]ed API call is resolved by an [outcome] handed to the
      handler, so every handler runs to completion in one step. *)

From Stdlib Require Import Ascii String NArith ZArith Bool Lia.
From stdpp Require Import gmap strings list fin_maps pretty.

Open Scope string_scope.

(** ** JavaScript values *)

Module Js.

(** Code units of a literal of the source text. *)
Definition lit (s : string) : list N := N_of_ascii <$> list_ascii_of_string s.

(** [WhiteSpace] and [LineTerminator] code units: what [String.prototype.trim]
    strips and what the class [\s] of a regular expression matches. *)
Definition is_white_space (c : N) : bool :=
  ((9 <=? c) && (c <=? 13) || (c =? 32) || (c =? 160) || (c =? 5760)
   || (8192 <=? c) && (c <=? 8202) || (c =? 8232) || (c =? 8233)
   || (c =? 8239) || (c =? 8287) || (c =? 12288) || (c =? 65279))%N.

Fixpoint trimStart (s : list N) : list N :=
  match s with
  | c :: s' => if is_white_space c then trimStart s' else s
  | [] => []
  end.

Definition trimEnd (s : list N) : list N := reverse (trimStart (reverse s)).

Definition trim (s : list N) : list N := trimEnd (trimStart s).

(** Primitive values, as JSON and form fields deliver them. Numbers are the
    integers the API carries (ids, counts). *)
Inductive jsval :=
| JUndefined
| JNull
| JBool (b : bool)
| JNum (n : Z)
| JStr (s : list N).

#[global] Instance jsval_eq_dec : EqDecision jsval.
Proof. solve_decision. Defined.

(** ToBoolean. *)
Definition truthy (v : jsval) : bool :=
  match v with
  | JUndefined | JNull => false
  | JBool b => b
  | JNum n => negb (n =? 0)%Z
  | JStr s => negb (bool_decide (s = []))
  end.

(** [a || b]: the first operand when it is truthy, the second otherwise. *)
Definition logical_or (a b : jsval) : jsval := if truthy a then a else b.

(** [a === b] and [a !== b] on primitives. *)
Definition strict_eq (a b : jsval) : bool := bool_decide (a = b).
Definition strict_neq (a b : jsval) : bool := negb (strict_eq a b).

(** *** Number::toString *)

(** The double nearest to a non-negative integer, ties to the even
    significand. A [JNum n] the API delivers is such a double already. *)
Definition to_double (n : Z) : Z :=
  let bits := (Z.log2 n + 1)%Z in
  if (bits <=? 53)%Z then n
  else
    let e := (bits - 53)%Z in
    let q := Z.shiftr n e in
    let r := Z.land n (Z.ones e) in
    let half := Z.shiftl 1 (e - 1) in
    let q' := if (half <? r)%Z || ((r =? half)%Z && Z.odd q) then (q + 1)%Z else q in
    Z.shiftl q' e.

(** The multiples of [p] next to [x] that read back as the double [x]: the
    one nearer to [x], the one with the even digit on a tie. *)
Definition round_trip (x p : Z) : option Z :=
  let lo := (x / p * p)%Z in
  let hi := (lo + p)%Z in
  match (to_double lo =? x)%Z, (to_double hi =? x)%Z with
  | true, true =>
      Some (if (x - lo <? hi - x)%Z then lo
            else if (hi - x <? x - lo)%Z then hi
            else if Z.even (lo / p) then lo else hi)
  | true, false => Some lo
  | false, true => Some hi
  | false, false => None
  end.

(** The decimal with the fewest significant digits that reads back as [x];
    [p] is the weight of the last digit tried, from the first digit of [x]
    downwards. *)
Fixpoint shortest (fuel : nat) (x p : Z) : Z :=
  match fuel with
  | O => x
  | S fuel' =>
      if (p <=? 1)%Z then x
      else match round_trip x p with
           | Some v => v
           | None => shortest fuel' x (p / 10)
           end
  end.

Fixpoint strip_zeros (fuel : nat) (v : Z) : Z :=
  match fuel with
  | O => v
  | S fuel' => if (v mod 10 =? 0)%Z then strip_zeros fuel' (v / 10) else v
  end.

(** Digits, a point after the first when more follow, and the exponent. *)
Definition exponent_form (digits : string) (exponent : Z) : string :=
  match digits with
  | EmptyString => EmptyString
  | String c EmptyString => String c ("e+" +:+ pretty exponent)
  | String c rest => String c ("." +:+ rest +:+ "e+" +:+ pretty exponent)
  end.

(** The text of a positive integer double: all the digits of its shortest
    decimal up to 21 of them, the exponent form beyond, [Infinity] past
    the largest double. *)
Definition positive_to_string (a : Z) : string :=
  let x := to_double a in
  if (Z.shiftl 1 1024 <=? x)%Z then "Infinity"
  else
    let len := String.length (pretty x) in
    let v := shortest len x (10 ^ (Z.of_nat len - 1)) in
    let n := String.length (pretty v) in
    if (n <=? 21)%nat then pretty v
    else exponent_form (pretty (strip_zeros n v)) (Z.of_nat n - 1).

Definition number_to_string (n : Z) : string :=
  if (n =? 0)%Z then "0"
  else if (n <? 0)%Z then "-" +:+ positive_to_string (Z.abs n)
  else positive_to_string n.

(** ToString on primitives. *)
Definition to_string (v : jsval) : list N :=
  match v with
  | JUndefined => lit "undefined"
  | JNull => lit "null"
  | JBool true => lit "true"
  | JBool false => lit "false"
  | JNum n => lit (number_to_string n)
  | JStr s => s
  end.

(** [Array.prototype.join]: [undefined] and [null] elements print as the
    empty string. *)
Definition join_elem (v : jsval) : list N :=
  match v with
  | JUndefined | JNull => []
  | _ => to_string v
  end.

Fixpoint join (sep : list N) (l : list jsval) : list N :=
  match l with
  | [] => []
  | [v] => join_elem v
  | v :: l' => join_elem v ++ sep ++ join sep l'
  end.

(** A property of a response body: a primitive or an array of primitives
    (the shape of a field-error list). *)
Inductive jsfield :=
| FVal (v : jsval)
| FArr (l : list jsval).

Definition field_truthy (f : jsfield) : bool :=
  match f with
  | FVal v => truthy v
  | FArr _ => true
  end.

Definition field_to_string (f : jsfield) : list N :=
  match f with
  | FVal v => to_string v
  | FArr l => join (lit ",") l
  end.

(** The [data] of a response: a primitive (an empty or a text body) or an
    object, its own properties in the order [Object.keys] lists them. *)
Inductive jsbody :=
| BVal (v : jsval)
| BObj (o : list (string * jsfield)).

Definition body_truthy (d : jsbody) : bool :=
  match d with
  | BVal v => truthy v
  | BObj _ => true
  end.

Fixpoint assoc (k : string) (o : list (string * jsfield)) : jsfield :=
  match o with
  | [] => FVal JUndefined
  | (k', f) :: o' => if bool_decide (k' = k) then f else assoc k o'
  end.

(** [d?.k]: reading a property of a primitive gives [undefined]. *)
Definition prop (d : jsbody) (k : string) : jsfield :=
  match d with
  | BVal _ => FVal JUndefined
  | BObj o => assoc k o
  end.

(** [Object.entries] of a truthy body: the characters of a string under
    their indices, the properties of an object, nothing otherwise. *)
Definition entries (d : jsbody) : list (string * jsfield) :=
  match d with
  | BVal (JStr s) => imap (fun i c => (pretty i, FVal (JStr [c]))) s
  | BVal _ => []
  | BObj o => o
  end.

(** What a rejected API call throws: an error whose [response] is missing
    when the server was not reached. *)
Record error := { response : option jsbody }.

(** [error.response?.data] *)
Definition response_data (e : error) : jsbody :=
  match response e with
  | Some d => d
  | None => BVal JUndefined
  end.

Inductive outcome (A : Type) :=
| Resolved (a : A)
| Rejected (e : error).
Arguments Resolved {A} a.
Arguments Rejected {A} e.

(** The two keys of the session. *)
Definition session_key (k : string) : Prop := k = "token" ∨ k = "refreshToken".

End Js.

(** ** Regular expressions over code units *)

Module Regex.

Inductive regex :=
| Void
| Eps
| Class (p : N → bool)
| Cat (r1 r2 : regex)
| Alt (r1 r2 : regex)
| Star (r : regex).

(** [r+] *)
Definition Plus (r : regex) : regex := Cat r (Star r).

Fixpoint nullable (r : regex) : bool :=
  match r with
  | Void => false
  | Eps => true
  | Class _ => false
  | Cat r1 r2 => nullable r1 && nullable r2
  | Alt r1 r2 => nullable r1 || nullable r2
  | Star _ => true
  end.

Fixpoint deriv (c : N) (r : regex) : regex :=
  match r with
  | Void => Void
  | Eps => Void
  | Class p => if p c then Eps else Void
  | Cat r1 r2 =>
      if nullable r1 then Alt (Cat (deriv c r1) r2) (deriv c r2)
      else Cat (deriv c r1) r2
  | Alt r1 r2 => Alt (deriv c r1) (deriv c r2)
  | Star r1 => Cat (deriv c r1) (Star r1)
  end.

(** [/^r$/.test(s)]: the whole of [s] is in the language of [r]. *)
Fixpoint test (r : regex) (s : list N) : bool :=
  match s with
  | [] => nullable r
  | c :: s' => test (deriv c r) s'
  end.

(** The language of a regular expression. *)
Inductive matches : regex → list N → Prop :=
| MEps : matches Eps []
| MClass p c : p c = true → matches (Class p) [c]
| MCat r1 r2 s1 s2 : matches r1 s1 → matches r2 s2 → matches (Cat r1 r2) (s1 ++ s2)
| MAltL r1 r2 s : matches r1 s → matches (Alt r1 r2) s
| MAltR r1 r2 s : matches r2 s → matches (Alt r1 r2) s
| MStarNil r : matches (Star r) []
| MStarCons r s1 s2 : matches r s1 → matches (Star r) s2 → matches (Star r) (s1 ++ s2).

End Regex.

(** ** Register.jsx *)

Module Register.
Import Js.

(** The [formData] cell: six text inputs. *)
Record formData := {
  username : list N;
  email : list N;
  first_name : list N;
  last_name : list N;
  password : list N;
  password2 : list N;
}.

Record state := {
  form : formData;
  errors : gmap string jsval;
  isLoading : bool;
  success : list N;
}.

Definition initial : state :=
  {| form := {| username := []; email := []; first_name := [];
                last_name := []; password := []; password2 := [] |};
     errors := ∅; isLoading := false; success := [] |}.

(** What the handler does outside the component. *)
Inductive effect :=
| PreventDefault
| CallRegister (body : formData)
| NavigateAfter (path : string) (ms : Z).

(** [[^\s@]] *)
Definition not_space_at (c : N) : bool := negb (is_white_space c || (c =? 64)%N).

(** [/^[^\s@]+@[^\s@]+\.[^\s@]+$/] *)
Definition emailRegex : Regex.regex :=
  Regex.Cat (Regex.Plus (Regex.Class not_space_at))
    (Regex.Cat (Regex.Class (N.eqb 64))
       (Regex.Cat (Regex.Plus (Regex.Class not_space_at))
          (Regex.Cat (Regex.Class (N.eqb 46))
             (Regex.Plus (Regex.Class not_space_at))))).

(** The four checks of [validateForm], each the error it records. *)
Definition check_username (fd : formData) : option (list N) :=
  if bool_decide (trim (username fd) = []) then Some (lit "Username is required")
  else if (length (username fd) <? 3)%nat then Some (lit "At least 3 characters")
  else None.

Definition check_email (fd : formData) : option (list N) :=
  if bool_decide (trim (email fd) = []) then Some (lit "Email is required")
  else if negb (Regex.test emailRegex (email fd)) then Some (lit "Enter a valid email")
  else None.

Definition check_password (fd : formData) : option (list N) :=
  if bool_decide (password fd = []) then Some (lit "Password is required")
  else if (length (password fd) <? 8)%nat then Some (lit "At least 8 characters")
  else None.

Definition check_password2 (fd : formData) : option (list N) :=
  if bool_decide (password2 fd = []) then Some (lit "Confirm your password")
  else if negb (bool_decide (password fd = password2 fd)) then Some (lit "Passwords do not match")
  else None.

(** [newErrors[k] = msg] when the check recorded a message. *)
Definition record_error (k : string) (c : option (list N))
    (newErrors : gmap string jsval) : gmap string jsval :=
  match c with
  | Some msg => <[k := JStr msg]> newErrors
  | None => newErrors
  end.

Definition newErrors (fd : formData) : gmap string jsval :=
  record_error "password2" (check_password2 fd)
    (record_error "password" (check_password fd)
       (record_error "email" (check_email fd)
          (record_error "username" (check_username fd) ∅))).

(** [validateForm]: stores [newErrors] in the [errors] cell and answers
    [Object.keys(newErrors).length === 0]. *)
Definition validateForm (st : state) : state * bool :=
  let ne := newErrors (form st) in
  ({| form := form st; errors := ne; isLoading := isLoading st; success := success st |},
   bool_decide (length (map_to_list ne).*1 = 0%nat)).

(** The [catch] block: the field errors of the response, arrays joined, or
    the connectivity message. *)
Definition format_field (f : jsfield) : jsval :=
  match f with
  | FArr l => JStr (join (lit ", ") l)
  | FVal v => v
  end.

(** [formatted[key] = v]: an own property, except under [__proto__], where
    the assignment goes to the setter of [Object.prototype] and, [v] being
    a primitive, leaves the object without a new key. *)
Definition assign (key : string) (v : jsval) (o : gmap string jsval) :
    gmap string jsval :=
  if bool_decide (key = "__proto__") then o else <[key := v]> o.

Definition formatted (apiErrors : jsbody) : gmap string jsval :=
  foldl (fun acc kv => assign kv.1 (format_field kv.2) acc) ∅ (entries apiErrors).

Definition catch_errors (e : error) : gmap string jsval :=
  if body_truthy (response_data e) then formatted (response_data e)
  else {[ "general" := JStr (lit "Unable to connect. Please try again.") ]}.

(** [handleSubmit], with the outcome of the awaited [register] call. *)
Definition handleSubmit (st : state) (r : outcome unit) : state * list effect :=
  let '(st1, ok) := validateForm st in
  if negb ok then (st1, [PreventDefault])
  else
    match r with
    | Resolved _ =>
        ({| form := form st1; errors := ∅; isLoading := false;
            success := lit "Account created! Redirecting to login..." |},
         [PreventDefault; CallRegister (form st); NavigateAfter "/login" 2000])
    | Rejected e =>
        ({| form := form st1; errors := catch_errors e; isLoading := false;
            success := success st1 |},
         [PreventDefault; CallRegister (form st)])
    end.

(** The request reached the API client. *)
Definition sends_register (effs : list effect) : bool :=
  existsb (fun e => match e with CallRegister _ => true | _ => false end) effs.

(** *** The validation rule as the specification words it *)

(** The validation rule in the words of the specification: username present
    and of at least 3 characters; email present and matching the pattern;
    password present and of at least 8 characters; confirmation present and
    equal to the password. *)
Definition spec_username_ok (fd : formData) : Prop :=
  trim (username fd) ≠ [] ∧ (3 ≤ length (username fd))%nat.

Definition spec_email_ok (fd : formData) : Prop :=
  trim (email fd) ≠ [] ∧ Regex.test emailRegex (email fd) = true.

Definition spec_password_ok (fd : formData) : Prop :=
  password fd ≠ [] ∧ (8 ≤ length (password fd))%nat.

Definition spec_password2_ok (fd : formData) : Prop :=
  password2 fd ≠ [] ∧ password2 fd = password fd.

Definition spec_valid (fd : formData) : Prop :=
  spec_username_ok fd ∧ spec_email_ok fd ∧ spec_password_ok fd ∧ spec_password2_ok fd.

(** What [emailRegex] accepts: a local part, an at sign (code unit 64), a
    domain, a dot (code unit 46) and a suffix, each non-empty and free of
    white space and at signs. *)
Definition email_part (s : list N) : Prop :=
  s ≠ [] ∧ Forall (fun c => not_space_at c = true) s.

(** *** Sample forms *)

(** Sample forms: the example of the specification, and two rejected ones. *)
Definition sample_form (u p p2 : string) : state :=
  {| form := {| username := lit u; email := lit "bob@x.com"; first_name := [];
                last_name := []; password := lit p; password2 := lit p2 |};
     errors := ∅; isLoading := false; success := [] |}.

(** *** Typing in a field *)

(** The six inputs of the form, all bound to [handleChange]. *)
Inductive input :=
| InUsername
| InEmail
| InFirstName
| InLastName
| InPassword
| InPassword2.

Definition input_name (i : input) : string :=
  match i with
  | InUsername => "username"
  | InEmail => "email"
  | InFirstName => "first_name"
  | InLastName => "last_name"
  | InPassword => "password"
  | InPassword2 => "password2"
  end.

Definition get_field (i : input) (fd : formData) : list N :=
  match i with
  | InUsername => username fd
  | InEmail => email fd
  | InFirstName => first_name fd
  | InLastName => last_name fd
  | InPassword => password fd
  | InPassword2 => password2 fd
  end.

(** [{ ...prev, [name]: value }] on the form data. *)
Definition set_field (i : input) (value : list N) (prev : formData) : formData :=
  match i with
  | InUsername =>
      {| username := value; email := email prev; first_name := first_name prev;
         last_name := last_name prev; password := password prev;
         password2 := password2 prev |}
  | InEmail =>
      {| username := username prev; email := value; first_name := first_name prev;
         last_name := last_name prev; password := password prev;
         password2 := password2 prev |}
  | InFirstName =>
      {| username := username prev; email := email prev; first_name := value;
         last_name := last_name prev; password := password prev;
         password2 := password2 prev |}
  | InLastName =>
      {| username := username prev; email := email prev; first_name := first_name prev;
         last_name := value; password := password prev;
         password2 := password2 prev |}
  | InPassword =>
      {| username := username prev; email := email prev; first_name := first_name prev;
         last_name := last_name prev; password := value;
         password2 := password2 prev |}
  | InPassword2 =>
      {| username := username prev; email := email prev; first_name := first_name prev;
         last_name := last_name prev; password := password prev;
         password2 := value |}
  end.

(** [errors[name]], [undefined] for a missing key. *)
Definition error_of (errs : gmap string jsval) (name : string) : jsval :=
  default JUndefined (errs !! name).

(** [handleChange] on the input [i] of the event, holding [value]. *)
Definition handleChange (i : input) (value : list N) (st : state) : state :=
  {| form := set_field i value (form st);
     errors := if truthy (error_of (errors st) (input_name i))
               then <[input_name i := JStr []]> (errors st)
               else errors st;
     isLoading := isLoading st;
     success := success st |}.

(** The keys of an object body, as [JSON.parse] builds it: no key twice. *)
Definition distinct_keys (o : list (string * jsfield)) : Prop := NoDup o.*1.

End Register.

(** ** Login.jsx *)

Module Login.
Import Js.

Record formData := {
  username : list N;
  password : list N;
}.

Record state := {
  form : formData;
  errors : gmap string jsfield;
  isLoading : bool;
}.

(** The page and the browser storage its handler writes to. *)
Record world := {
  cell : state;
  localStorage : gmap string (list N);
}.

Inductive effect :=
| PreventDefault
| CallLogin (body : formData)
| Navigate (path : string).

Definition newErrors (fd : formData) : gmap string jsfield :=
  let e1 : gmap string jsfield :=
    if bool_decide (trim (username fd) = [])
    then {[ "username" := FVal (JStr (lit "Please enter your username")) ]} else ∅ in
  if bool_decide (password fd = [])
  then <[ "password" := FVal (JStr (lit "Please enter your password")) ]> e1 else e1.

(** [validateForm]: [Object.keys(newErrors).length === 0] *)
Definition validateForm (fd : formData) : bool :=
  bool_decide (length (map_to_list (newErrors fd)).*1 = 0%nat).

(** [localStorage.setItem(k, v)]: the value is stored as a string. *)
Definition setItem (k : string) (v : jsfield) (ls : gmap string (list N)) :
    gmap string (list N) :=
  <[k := field_to_string v]> ls.

(** The [try] block on a resolved [login] call, [data] being
    [response.data]: the new storage and the navigation made. *)
Definition on_resolved (data : jsbody) (ls : gmap string (list N)) :
    gmap string (list N) * list effect :=
  if field_truthy (prop data "access") then
    let ls1 := setItem "token" (prop data "access") ls in
    let ls2 := if field_truthy (prop data "refresh")
               then setItem "refreshToken" (prop data "refresh") ls1 else ls1 in
    (ls2, [Navigate "/dashboard"])
  else if field_truthy (prop data "token") then
    (setItem "token" (prop data "token") ls, [Navigate "/dashboard"])
  else (ls, []).

(** The [catch] block: the message stored under [general]. *)
Definition on_rejected (e : error) : jsfield :=
  if body_truthy (response_data e) then
    if field_truthy (prop (response_data e) "detail")
    then prop (response_data e) "detail"
    else FVal (JStr (lit "Invalid credentials. Please try again."))
  else FVal (JStr (lit "Unable to connect. Please try again later.")).

(** [handleSubmit], with the outcome of the awaited [login] call. *)
Definition handleSubmit (w : world) (r : outcome jsbody) : world * list effect :=
  let fd := form (cell w) in
  if negb (validateForm fd) then
    ({| cell := {| form := fd; errors := newErrors fd; isLoading := isLoading (cell w) |};
        localStorage := localStorage w |},
     [PreventDefault])
  else
    match r with
    | Resolved data =>
        let '(ls, effs) := on_resolved data (localStorage w) in
        ({| cell := {| form := fd; errors := ∅; isLoading := false |};
            localStorage := ls |},
         PreventDefault :: CallLogin fd :: effs)
    | Rejected e =>
        ({| cell := {| form := fd; errors := {[ "general" := on_rejected e ]};
                       isLoading := false |};
            localStorage := localStorage w |},
         [PreventDefault; CallLogin fd])
    end.

(** What the page shows of the [errors] cell: the banner and the two
    field messages, each only when truthy. *)
Definition shown (st : state) (k : string) : option jsfield :=
  match errors st !! k with
  | Some f => if field_truthy f then Some f else None
  | None => None
  end.

(** *** Messages and sample attempts *)

(** The two messages of the [catch] block. *)
Definition invalid_credentials : jsfield :=
  FVal (JStr (lit "Invalid credentials. Please try again.")).

Definition unable_to_connect : jsfield :=
  FVal (JStr (lit "Unable to connect. Please try again later.")).

(** A login attempt the server answers with an empty body. *)
Definition wrong_password : world :=
  {| cell := {| form := {| username := lit "bob12"; password := lit "wrong" |};
                errors := ∅; isLoading := false |};
     localStorage := ∅ |}.

Definition empty_body : error := {| response := Some (BVal (JStr [])) |}.

(** The login of the specification's example. *)
Definition bob_login : world :=
  {| cell := {| form := {| username := lit "bob12"; password := lit "longenough1" |};
                errors := ∅; isLoading := false |};
     localStorage := ∅ |}.

(** The login of the specification's example, answered with both tokens. *)
Definition both_tokens : jsbody :=
  BObj [("access", FVal (JStr (lit "aaa"))); ("refresh", FVal (JStr (lit "rrr")))].

(** The same login, answered with a [token] and a [refresh] value and no
    [access]. *)
Definition token_and_refresh : jsbody :=
  BObj [("token", FVal (JStr (lit "ttt"))); ("refresh", FVal (JStr (lit "rrr")))].

(** *** Typing in a field *)

(** The two inputs of the form, both bound to [handleChange]. *)
Inductive input :=
| InUsername
| InPassword.

Definition input_name (i : input) : string :=
  match i with
  | InUsername => "username"
  | InPassword => "password"
  end.

Definition get_field (i : input) (fd : formData) : list N :=
  match i with
  | InUsername => username fd
  | InPassword => password fd
  end.

(** [{ ...prev, [name]: value }] on the form data. *)
Definition set_field (i : input) (value : list N) (prev : formData) : formData :=
  match i with
  | InUsername => {| username := value; password := password prev |}
  | InPassword => {| username := username prev; password := value |}
  end.

(** [errors[name]], [undefined] for a missing key. *)
Definition error_of (errs : gmap string jsfield) (name : string) : jsfield :=
  default (FVal JUndefined) (errs !! name).

(** [handleChange] on the input [i] of the event, holding [value]. *)
Definition handleChange (i : input) (value : list N) (st : state) : state :=
  {| form := set_field i value (form st);
     errors := if field_truthy (error_of (errors st) (input_name i))
                  || field_truthy (error_of (errors st) "general")
               then <["general" := FVal (JStr [])]>
                      (<[input_name i := FVal (JStr [])]> (errors st))
               else errors st;
     isLoading := isLoading st |}.


Definition navigates (path : string) (effs : list effect) : bool :=
  existsb (fun e => match e with
                    | Navigate p => bool_decide (p = path)
                    | _ => false
                    end) effs.

End Login.

(** ** Dashboard.jsx *)

Module Dashboard.
Import Js.

(** A user object as the profile and the user-list endpoints return it;
    a property the server left out reads as [undefined]. *)
Record User := {
  id : jsval;
  username : jsval;
  email : jsval;
  first_name : jsval;
  last_name : jsval;
  full_name : jsval;
  is_active : jsval;
  is_staff : jsval;
  is_superuser : jsval;
}.

Record Message := { type : list N; text : jsfield }.

(** The [useState] cells of the component. *)
Record state := {
  user : option User;
  isLoading : bool;
  isAdmin : jsval;
  users : list User;
  searchQuery : list N;
  usersLoading : bool;
  editingUser : option User;
  editForm : gmap string jsval;
  message : Message;
}.

Definition initial : state :=
  {| user := None; isLoading := true; isAdmin := JBool false; users := [];
     searchQuery := []; usersLoading := false; editingUser := None;
     editForm := ∅; message := {| type := []; text := FVal (JStr []) |} |}.

(** Calls that leave the component: the API client, the router and
    [window.confirm]. *)
Inductive call :=
| GetProfile
| GetUsers (q : list N)
| UpdateUser (target : jsval) (body : gmap string jsval)
| DeleteUser (target : jsval)
| Navigate (path : string)
| Confirm (question : list N).

Record world := {
  cell : state;
  localStorage : gmap string (list N);
  log : list call;
}.

(** *** The handler monad: state of the component, storage, call log *)

Definition M (A : Type) : Type := world → A * world.

Definition ret {A} (a : A) : M A := fun w => (a, w).

Definition bind {A B} (m : M A) (k : A → M B) : M B :=
  fun w => let '(a, w') := m w in k a w'.

Notation "x <~ m ; k" := (bind m (fun x => k))
  (at level 100, m at next level, right associativity).
Notation "m >> k" := (bind m (fun _ => k))
  (at level 100, right associativity).

Definition exec {A} (m : M A) (w : world) : world := (m w).2.

Definition get_state : M state := fun w => (cell w, w).

Definition modify (f : state → state) : M unit :=
  fun w => (tt, {| cell := f (cell w); localStorage := localStorage w; log := log w |}).

Definition emit (c : call) : M unit :=
  fun w => (tt, {| cell := cell w; localStorage := localStorage w; log := log w ++ [c] |}).

Definition getItem (k : string) : M (option (list N)) :=
  fun w => (localStorage w !! k, w).

Definition removeItem (k : string) : M unit :=
  fun w => (tt, {| cell := cell w; localStorage := delete k (localStorage w); log := log w |}).

Definition setUser (v : option User) : M unit :=
  modify (fun s => {| user := v; isLoading := isLoading s; isAdmin := isAdmin s;
    users := users s; searchQuery := searchQuery s; usersLoading := usersLoading s;
    editingUser := editingUser s; editForm := editForm s; message := message s |}).

Definition setIsLoading (v : bool) : M unit :=
  modify (fun s => {| user := user s; isLoading := v; isAdmin := isAdmin s;
    users := users s; searchQuery := searchQuery s; usersLoading := usersLoading s;
    editingUser := editingUser s; editForm := editForm s; message := message s |}).

Definition setIsAdmin (v : jsval) : M unit :=
  modify (fun s => {| user := user s; isLoading := isLoading s; isAdmin := v;
    users := users s; searchQuery := searchQuery s; usersLoading := usersLoading s;
    editingUser := editingUser s; editForm := editForm s; message := message s |}).

Definition setUsers (v : list User) : M unit :=
  modify (fun s => {| user := user s; isLoading := isLoading s; isAdmin := isAdmin s;
    users := v; searchQuery := searchQuery s; usersLoading := usersLoading s;
    editingUser := editingUser s; editForm := editForm s; message := message s |}).

Definition setSearchQuery (v : list N) : M unit :=
  modify (fun s => {| user := user s; isLoading := isLoading s; isAdmin := isAdmin s;
    users := users s; searchQuery := v; usersLoading := usersLoading s;
    editingUser := editingUser s; editForm := editForm s; message := message s |}).

Definition setUsersLoading (v : bool) : M unit :=
  modify (fun s => {| user := user s; isLoading := isLoading s; isAdmin := isAdmin s;
    users := users s; searchQuery := searchQuery s; usersLoading := v;
    editingUser := editingUser s; editForm := editForm s; message := message s |}).

Definition setEditingUser (v : option User) : M unit :=
  modify (fun s => {| user := user s; isLoading := isLoading s; isAdmin := isAdmin s;
    users := users s; searchQuery := searchQuery s; usersLoading := usersLoading s;
    editingUser := v; editForm := editForm s; message := message s |}).

(** [setEditForm(prev => f prev)] *)
Definition setEditForm (f : gmap string jsval → gmap string jsval) : M unit :=
  modify (fun s => {| user := user s; isLoading := isLoading s; isAdmin := isAdmin s;
    users := users s; searchQuery := searchQuery s; usersLoading := usersLoading s;
    editingUser := editingUser s; editForm := f (editForm s); message := message s |}).

Definition setMessage (ty : string) (tx : jsfield) : M unit :=
  modify (fun s => {| user := user s; isLoading := isLoading s; isAdmin := isAdmin s;
    users := users s; searchQuery := searchQuery s; usersLoading := usersLoading s;
    editingUser := editingUser s; editForm := editForm s;
    message := {| type := lit ty; text := tx |} |}).

(** *** The handlers *)

(** [!token] on what [localStorage.getItem] returned. *)
Definition no_token (t : option (list N)) : bool :=
  match t with
  | None => true
  | Some s => bool_decide (s = [])
  end.

(** The [catch] block of [fetchProfile]. *)
Definition drop_session : M unit :=
  removeItem "token" >> removeItem "refreshToken" >> emit (Navigate "/login").

(** [fetchProfile]; a resolved call carries [response.data], [None] when
    the body is [null], on which reading [is_staff] throws. *)
Definition fetchProfile (r : outcome (option User)) : M unit :=
  token <~ getItem "token";
  if no_token token then emit (Navigate "/login")
  else
    emit GetProfile >>
    match r with
    | Resolved (Some d) =>
        setUser (Some d) >> setIsAdmin (logical_or (is_staff d) (is_superuser d))
    | Resolved None => setUser None >> drop_session
    | Rejected _ => drop_session
    end >>
    setIsLoading false.

(** [fetchUsers]; a resolved call carries [response.data.users], [None]
    when it is missing, for which [|| []] stands in. *)
Definition fetchUsers (r : outcome (option (list User))) : M unit :=
  st <~ get_state;
  setUsersLoading true >>
  emit (GetUsers (searchQuery st)) >>
  match r with
  | Resolved us => setUsers (default [] us)
  | Rejected _ => setMessage "error" (FVal (JStr (lit "Failed to load users.")))
  end >>
  setUsersLoading false.

(** The second [useEffect], run after a render in which [isAdmin] or
    [searchQuery] differs from the render before ([old]). *)
Definition users_effect (old : state) (r : outcome (option (list User))) : M unit :=
  st <~ get_state;
  if bool_decide (isAdmin st = isAdmin old ∧ searchQuery st = searchQuery old)
  then ret tt
  else if truthy (isAdmin st) then fetchUsers r else ret tt.

Definition handleLogout : M unit :=
  removeItem "token" >> removeItem "refreshToken" >> emit (Navigate "/login").

Definition handleSearch (value : list N) : M unit := setSearchQuery value.

Definition handleEditClick (userToEdit : User) : M unit :=
  setEditingUser (Some userToEdit) >>
  setEditForm (fun _ =>
    <["is_staff" := is_staff userToEdit]>
      (<["is_active" := is_active userToEdit]>
        (<["last_name" := last_name userToEdit]>
          (<["first_name" := first_name userToEdit]>
            (<["email" := email userToEdit]>
              (<["username" := username userToEdit]> ∅)))))) >>
  setMessage "" (FVal (JStr [])).

(** [handleEditChange] on the [e.target] of the event. *)
Definition handleEditChange (name type : string) (value : list N) (checked : bool) : M unit :=
  setEditForm (fun prev =>
    <[name := if bool_decide (type = "checkbox") then JBool checked else JStr value]> prev).

(** [Object.values(d).flat()] *)
Definition flat_values (o : list (string * jsfield)) : list jsval :=
  concat ((fun kv => match kv.2 with FVal v => [v] | FArr l => l end) <$> o).

(** The message of a failed update:
    [err.response?.data?.error || Object.values(err.response?.data || {}).flat().join(', ') || 'Failed to update user.'] *)
Definition update_error (e : error) : jsfield :=
  let d := response_data e in
  if field_truthy (prop d "error") then prop d "error"
  else
    let joined := join (lit ", ") (flat_values (if body_truthy d then entries d else [])) in
    if truthy (JStr joined) then FVal (JStr joined)
    else FVal (JStr (lit "Failed to update user.")).

(** A [TypeError] has no [response]. *)
Definition type_error : error := {| response := None |}.

Definition handleEditSubmit (r : outcome unit) (ru : outcome (option (list User))) : M unit :=
  st <~ get_state;
  match editingUser st with
  | None => setMessage "error" (update_error type_error)
  | Some u =>
      emit (UpdateUser (id u) (editForm st)) >>
      match r with
      | Resolved _ =>
          setMessage "success" (FVal (JStr (lit "User updated successfully!"))) >>
          setEditingUser None >>
          fetchUsers ru
      | Rejected e => setMessage "error" (update_error e)
      end
  end.

(** [err.response?.data?.error || 'Failed to delete user.'] *)
Definition delete_error (e : error) : jsfield :=
  if field_truthy (prop (response_data e) "error") then prop (response_data e) "error"
  else FVal (JStr (lit "Failed to delete user.")).

(** The text between double quotes (code unit 34), as the template
    literals of [handleDeleteUser] build it. *)
Definition quoted (v : jsval) : list N := [34%N] ++ to_string v ++ [34%N].

Definition handleDeleteUser (userToDelete : User) (confirmed : bool)
    (r : outcome unit) (ru : outcome (option (list User))) : M unit :=
  emit (Confirm (lit "Are you sure you want to delete user "
                 ++ quoted (username userToDelete) ++ lit "?")) >>
  if negb confirmed then ret tt
  else
    emit (DeleteUser (id userToDelete)) >>
    match r with
    | Resolved _ =>
        setMessage "success"
          (FVal (JStr (lit "User " ++ quoted (username userToDelete)
                       ++ lit " deleted successfully!"))) >>
        fetchUsers ru
    | Rejected e => setMessage "error" (delete_error e)
    end.

(** *** What the component renders *)

(** Past the loading screen, [{isAdmin && (...)}] shows the user-management
    panel: search bar and table, a row per user with its actions. *)
Definition admin_panel_shown (st : state) : bool :=
  negb (isLoading st) && truthy (isAdmin st).

(** The table replaces the spinner when [usersLoading] is off. *)
Definition table_shown (st : state) : bool :=
  admin_panel_shown st && negb (usersLoading st).

(** [user?.id] *)
Definition caller_id (st : state) : jsval :=
  match user st with
  | Some me => id me
  | None => JUndefined
  end.

(** [{!u.is_superuser && u.id !== user?.id && (<button ... Delete>)}] *)
Definition delete_button_shown (st : state) (u : User) : bool :=
  negb (truthy (is_superuser u)) && strict_neq (id u) (caller_id st).

(** [{editingUser && (...)}] *)
Definition modal_shown (st : state) : bool :=
  negb (isLoading st) && bool_decide (is_Some (editingUser st)).

(** The inputs of the edit form, all bound to [handleEditChange]. *)
Inductive edit_input :=
| InUsername
| InEmail
| InFirstName
| InLastName
| InIsActive
| InIsStaff.

Definition input_name (i : edit_input) : string :=
  match i with
  | InUsername => "username"
  | InEmail => "email"
  | InFirstName => "first_name"
  | InLastName => "last_name"
  | InIsActive => "is_active"
  | InIsStaff => "is_staff"
  end.

Definition input_type (i : edit_input) : string :=
  match i with
  | InUsername | InFirstName | InLastName => "text"
  | InEmail => "email"
  | InIsActive | InIsStaff => "checkbox"
  end.

(** What the person at the screen can do, with the outcome of the API call
    the handler awaits. Rows are named by their position in the table. *)
Inductive event :=
| ClickLogout
| ChangeSearch (value : list N)
| ClickEdit (row : nat)
| ClickDelete (row : nat) (confirmed : bool) (r : outcome unit)
| ChangeEdit (i : edit_input) (value : list N) (checked : bool)
| SubmitEdit (r : outcome unit)
| CloseEdit.

(** The handler bound to the control of an event, when the control is on
    the screen. *)
Definition handler (st : state) (ev : event) (ru : outcome (option (list User))) :
    option (M unit) :=
  match ev with
  | ClickLogout => if isLoading st then None else Some handleLogout
  | ChangeSearch value =>
      if admin_panel_shown st then Some (handleSearch value) else None
  | ClickEdit row =>
      if table_shown st then
        match users st !! row with
        | Some u => Some (handleEditClick u)
        | None => None
        end
      else None
  | ClickDelete row confirmed r =>
      if table_shown st then
        match users st !! row with
        | Some u =>
            if delete_button_shown st u
            then Some (handleDeleteUser u confirmed r ru) else None
        | None => None
        end
      else None
  | ChangeEdit i value checked =>
      if modal_shown st
      then Some (handleEditChange (input_name i) (input_type i) value checked)
      else None
  | SubmitEdit r => if modal_shown st then Some (handleEditSubmit r ru) else None
  | CloseEdit => if modal_shown st then Some (setEditingUser None) else None
  end.

(** One event: its handler, then the effect on the users list. [ru] resolves
    the [getUsers] call, should one be made. *)
Definition step (ev : event) (ru : outcome (option (list User))) : M unit :=
  st <~ get_state;
  match handler st ev ru with
  | Some h => h >> users_effect st ru
  | None => ret tt
  end.

(** Mounting runs [fetchProfile]; the users effect sees [isAdmin] change. *)
Definition mount (r : outcome (option User)) (ru : outcome (option (list User))) : M unit :=
  fetchProfile r >> users_effect initial ru.

Fixpoint run (evs : list (event * outcome (option (list User)))) : M unit :=
  match evs with
  | [] => ret tt
  | (ev, ru) :: evs' => step ev ru >> run evs'
  end.

Definition start (ls : gmap string (list N)) : world :=
  {| cell := initial; localStorage := ls; log := [] |}.

(** A visit of the dashboard: mount, then any events. *)
Definition session (ls : gmap string (list N)) (r : outcome (option User))
    (ru : outcome (option (list User)))
    (evs : list (event * outcome (option (list User)))) : world :=
  exec (mount r ru >> run evs) (start ls).

(** The delete requests among the calls. *)
Definition is_DeleteUser (c : call) : bool :=
  match c with DeleteUser _ => true | _ => false end.

(** [is_staff || is_superuser] holds on a profile. *)
Definition admin_flags (p : User) : bool :=
  truthy (is_staff p) || truthy (is_superuser p).

(** *** What one event may do *)

(** The keys of the object literal [handleEditClick] builds. *)
Definition edit_fields : gset string :=
  {["username"; "email"; "first_name"; "last_name"; "is_active"; "is_staff"]}.

(** Where a call may come from, given the state its handler ran in. *)
Definition call_allowed (st : state) (c : call) : Prop :=
  match c with
  | GetProfile => False
  | GetUsers _ => truthy (isAdmin st) = true ∨ is_Some (editingUser st)
  | UpdateUser target body =>
      body = editForm st ∧ ∃ u, editingUser st = Some u ∧ target = id u
  | DeleteUser target =>
      table_shown st = true ∧
      ∃ row u, users st !! row = Some u ∧ target = id u ∧
               delete_button_shown st u = true
  | Navigate path => path = "/login"
  | Confirm _ => True
  end.

(** What one event may change. *)
Record step_summary (w w' : world) : Prop := {
  same_user : user (cell w') = user (cell w);
  same_isAdmin : isAdmin (cell w') = isAdmin (cell w);
  same_isLoading : isLoading (cell w') = isLoading (cell w);
  storage_kept_or_cleared :
    localStorage w' = localStorage w ∨
    localStorage w' = delete "refreshToken" (delete "token" (localStorage w));
  calls_allowed :
    ∃ new : list call, log w' = (log w ++ new)%list ∧ Forall (call_allowed (cell w)) new;
  modal_opened_by_admin :
    is_Some (editingUser (cell w')) →
    is_Some (editingUser (cell w)) ∨ truthy (isAdmin (cell w)) = true;
  edit_form_fields :
    (is_Some (editingUser (cell w)) → dom (editForm (cell w)) = edit_fields) →
    is_Some (editingUser (cell w')) → dom (editForm (cell w')) = edit_fields;
}.

(** *** Sample sessions *)

Definition sample_user (i : Z) (name : string) (staff super : bool) : User :=
  {| id := JNum i; username := JStr (lit name); email := JStr (lit "bob@x.com");
     first_name := JStr []; last_name := JStr []; full_name := JStr [];
     is_active := JBool true; is_staff := JBool staff; is_superuser := JBool super |}.

Definition with_token : gmap string (list N) := {[ "token" := lit "abc" ]}.

(** The table an admin sees: the admin's own row, a plain user and a
    superuser. *)
Definition sample_rows : outcome (option (list User)) :=
  Resolved (Some [sample_user 1 "ann" true false;
                  sample_user 2 "bob12" false false;
                  sample_user 3 "root" false true]).

(** The payload of an edit in which the admin ticks the staff box. *)
Definition sample_payload : gmap string jsval :=
  <["is_staff" := JBool true]>
    (<["is_active" := JBool true]>
      (<["last_name" := JStr []]>
        (<["first_name" := JStr []]>
          (<["email" := JStr (lit "bob@x.com")]>
            (<["username" := JStr (lit "bob12")]> ∅))))).

Definition sample_edit : list (event * outcome (option (list User))) :=
  [(ClickEdit 1, sample_rows);
   (ChangeEdit InIsStaff (lit "on") true, sample_rows);
   (SubmitEdit (Resolved tt), sample_rows)].

(** *** Reading the call log *)

(** Every delete request in the log comes straight after a
    [window.confirm] prompt; [prev] tells whether the call before the list
    was such a prompt. *)
Fixpoint prompted (prev : bool) (l : list call) : bool :=
  match l with
  | [] => true
  | DeleteUser _ :: l' => prev && prompted false l'
  | Confirm _ :: l' => prompted true l'
  | _ :: l' => prompted false l'
  end.

(** The value the edit form holds for an input when the modal opens on
    the row [u]. *)
Definition row_field (i : edit_input) (u : User) : jsval :=
  match i with
  | InUsername => username u
  | InEmail => email u
  | InFirstName => first_name u
  | InLastName => last_name u
  | InIsActive => is_active u
  | InIsStaff => is_staff u
  end.

(** The question [handleDeleteUser] puts to [window.confirm]. *)
Definition delete_question (u : User) : list N :=
  lit "Are you sure you want to delete user " ++ quoted (username u) ++ lit "?".

End Dashboard.

(** * Properties *)

(** ** Numbers as text *)

Section JsProperties.
Import Js.
#[local] Open Scope Z_scope.

Lemma to_double_small n : Z.log2 n + 1 ≤ 53 → to_double n = n.
Proof. intros H. unfold to_double. apply Z.leb_le in H. by rewrite H. Qed.

Lemma to_double_large n : 2 ^ 53 ≤ n → 2 ^ 53 ≤ to_double n.
Proof.
  intros Hn. unfold to_double.
  assert (53 ≤ Z.log2 n) as Hl by (apply Z.log2_le_pow2; lia).
  destruct (Z.leb_spec (Z.log2 n + 1) 53) as [?|_]; [lia|].
  cbv zeta. set (e := Z.log2 n + 1 - 53).
  assert (1 ≤ e) by (unfold e; lia).
  set (q := Z.shiftr n e).
  assert (2 ^ 52 ≤ q) as Hq.
  { unfold q. rewrite Z.shiftr_div_pow2 by lia.
    apply Z.div_le_lower_bound; [lia|].
    rewrite <- Z.pow_add_r by lia.
    replace (e + 52) with (Z.log2 n) by (unfold e; lia).
    apply Z.log2_spec. lia. }
  match goal with
  | |- _ ≤ Z.shiftl ?x _ =>
      assert (2 ^ 52 ≤ x) as Hx by (destruct (_ || _); lia);
      revert Hx; generalize x; intros q' Hx
  end.
  rewrite Z.shiftl_mul_pow2 by lia.
  assert (2 ^ 1 ≤ 2 ^ e) by (apply Z.pow_le_mono_r; lia).
  change (2 ^ 53) with (2 ^ 52 * 2 ^ 1). nia.
Qed.

Lemma round_trip_safe x p :
  0 < x < 2 ^ 53 → 1 < p → ∀ v, round_trip x p = Some v → v = x.
Proof.
  intros Hx Hp v. unfold round_trip. cbv zeta.
  assert (x / p * p ≤ x < x / p * p + p) as Hlo.
  { pose proof (Z.mod_pos_bound x p ltac:(lia)). pose proof (Z.div_mod x p ltac:(lia)). lia. }
  assert (0 ≤ x / p * p).
  { pose proof (Z.div_pos x p ltac:(lia) ltac:(lia)). nia. }
  assert (to_double (x / p * p) = x / p * p) as Elo.
  { apply to_double_small.
    destruct (Z.eq_dec (x / p * p) 0) as [->|]; [done|].
    assert (Z.log2 (x / p * p) < 53); [|lia].
    apply Z.log2_lt_pow2; lia. }
  assert (to_double (x / p * p + p) ≠ x) as Ehi.
  { destruct (Z.le_gt_cases (2 ^ 53) (x / p * p + p)) as [Hbig|Hsmall].
    - apply to_double_large in Hbig. lia.
    - rewrite to_double_small; [lia|].
      assert (Z.log2 (x / p * p + p) < 53); [|lia].
      apply Z.log2_lt_pow2; lia. }
  rewrite Elo.
  destruct (Z.eqb_spec (x / p * p) x) as [E|E];
    destruct (Z.eqb_spec (to_double (x / p * p + p)) x) as [E'|E']; try done.
  by intros [= <-].
Qed.

Lemma shortest_safe fuel x p : 0 < x < 2 ^ 53 → shortest fuel x p = x.
Proof.
  intros Hx. revert p. induction fuel as [|fuel IH]; intros p; simpl; [done|].
  destruct (Z.leb_spec p 1) as [|Hp]; [done|].
  destruct (round_trip x p) as [v|] eqn:E; [|apply IH].
  by apply (round_trip_safe x p Hx Hp).
Qed.

Lemma pretty_N_go_length (k : nat) : ∀ (x : N) (s : string),
  (x < 10 ^ N.of_nat k)%N →
  (String.length (pretty_N_go x s) ≤ k + String.length s)%nat.
Proof.
  induction k as [|k IH]; intros x s Hx.
  - assert (x = 0%N) as -> by (simpl in Hx; lia). rewrite pretty_N_go_0. lia.
  - destruct (N.eq_dec x 0%N) as [->|Hne].
    + rewrite pretty_N_go_0. lia.
    + rewrite pretty_N_go_step by lia.
      etrans; [apply IH|simpl; lia].
      apply N.Div0.div_lt_upper_bound.
      rewrite Nat2N.inj_succ, N.pow_succ_r' in Hx. lia.
Qed.

Lemma pretty_length (k : nat) (x : Z) :
  0 < x < 10 ^ Z.of_nat k → (String.length (pretty x) ≤ k)%nat.
Proof.
  intros Hx. destruct x as [|p|p]; try lia.
  unfold pretty, pretty_Z, pretty, pretty_N.
  destruct (decide (N.pos p = 0%N)) as [|_]; [done|].
  pose proof (pretty_N_go_length k (N.pos p) "") as H. simpl in H.
  rewrite Nat.add_0_r in H. apply H.
  apply N2Z.inj_lt. rewrite N2Z.inj_pow. simpl. rewrite nat_N_Z. lia.
Qed.

Lemma positive_to_string_safe (a : Z) :
  0 < a < 2 ^ 53 → positive_to_string a = pretty a.
Proof.
  intros Ha. unfold positive_to_string.
  rewrite to_double_small by (assert (Z.log2 a < 53); [apply Z.log2_lt_pow2|]; lia).
  cbv zeta. destruct (Z.leb_spec (Z.shiftl 1 1024) a) as [Hbig|_].
  { rewrite Z.shiftl_1_l in Hbig.
    assert (2 ^ 53 ≤ 2 ^ 1024) by (apply Z.pow_le_mono_r; lia). lia. }
  rewrite shortest_safe by done.
  destruct (Nat.leb_spec (String.length (pretty a)) 21) as [|Hlen]; [done|].
  pose proof (pretty_length 21 a) as H. lia.
Qed.

(** A safe integer prints as its decimal digits. *)
Lemma number_to_string_safe (n : Z) :
  - 2 ^ 53 < n < 2 ^ 53 → number_to_string n = pretty n.
Proof.
  intros Hn. unfold number_to_string.
  destruct (Z.eqb_spec n 0) as [->|Hne]; [done|].
  destruct (Z.ltb_spec n 0) as [Hneg|Hpos].
  - rewrite positive_to_string_safe by lia.
    destruct n as [|p|p]; try lia. done.
  - apply positive_to_string_safe. lia.
Qed.

(** From 1e21 on the text is in exponent form, and an integer past 2^53
    shows the digits of its shortest decimal only. *)
Example number_to_string_exponent :
  number_to_string (10 ^ 21) = "1e+21"%string ∧
  number_to_string (10 ^ 21 - 1) = "1e+21"%string ∧
  number_to_string (2 ^ 70) = "1.1805916207174113e+21"%string ∧
  number_to_string (- 10 ^ 23) = "-1e+23"%string ∧
  number_to_string (2 ^ 60) = "1152921504606847000"%string ∧
  number_to_string (2 ^ 53 + 1) = "9007199254740992"%string ∧
  number_to_string (2 ^ 1024) = "Infinity"%string.
Proof. vm_compute. done. Qed.

End JsProperties.

(** ** The pattern matcher *)

Section RegexProperties.
Import Regex.
#[local] Open Scope list_scope.

(** Inversion of [matches], one lemma per constructor of the pattern. *)
Lemma matches_void s : matches Void s ↔ False.
Proof. split; [|done]. intros H. inversion H. Qed.

Lemma matches_eps s : matches Eps s ↔ s = [].
Proof.
  split.
  - intros H. by inversion H.
  - intros ->. constructor.
Qed.

Lemma matches_class p s : matches (Class p) s ↔ ∃ c, s = [c] ∧ p c = true.
Proof.
  split.
  - intros H. inversion H; subst. eauto.
  - intros (c & -> & Hc). by constructor.
Qed.

Lemma matches_cat r1 r2 s :
  matches (Cat r1 r2) s ↔ ∃ s1 s2, s = s1 ++ s2 ∧ matches r1 s1 ∧ matches r2 s2.
Proof.
  split.
  - intros H. inversion H; subst. eauto.
  - intros (s1 & s2 & -> & H1 & H2). by constructor.
Qed.

Lemma matches_alt r1 r2 s : matches (Alt r1 r2) s ↔ matches r1 s ∨ matches r2 s.
Proof.
  split.
  - intros H. inversion H; subst; auto.
  - intros [H|H]; [by apply MAltL|by apply MAltR].
Qed.

Lemma nullable_spec r : nullable r = true ↔ matches r [].
Proof.
  induction r as [| |p|r1 IH1 r2 IH2|r1 IH1 r2 IH2|r IH]; simpl.
  - by rewrite matches_void.
  - by rewrite matches_eps.
  - rewrite matches_class. split; [done|]. by intros (c & ? & _).
  - rewrite andb_true_iff, IH1, IH2, matches_cat. split.
    + intros [H1 H2]. by exists [], [].
    + intros (s1 & s2 & Heq & H1 & H2).
      symmetry in Heq. apply app_eq_nil in Heq as [-> ->]. done.
  - by rewrite orb_true_iff, IH1, IH2, matches_alt.
  - split; [constructor|done].
Qed.

(** A non-empty word of [r*] starts with a non-empty word of [r]. *)
Lemma matches_star_cons r c s :
  matches (Star r) (c :: s) →
  ∃ s1 s2, s = s1 ++ s2 ∧ matches r (c :: s1) ∧ matches (Star r) s2.
Proof.
  remember (Star r) as r' eqn:Hr. remember (c :: s) as cs eqn:Hcs.
  intros H. revert c s Hcs.
  induction H as [|q d| | | | |r0 s1 s2 H1 _ H2 IH2]; intros c0 w Hcs; try done.
  injection Hr as ->. destruct s1 as [|c1 s1]; simpl in Hcs.
  - by apply IH2.
  - injection Hcs as -> <-. by exists s1, s2.
Qed.

(** A word of [r1 r2] that starts with [c]: either [r1] takes the empty
    word, or it takes [c] and more. *)
Lemma matches_cat_cons r1 r2 c s :
  matches (Cat r1 r2) (c :: s) ↔
  (matches r1 [] ∧ matches r2 (c :: s)) ∨
  ∃ s1 s2, s = s1 ++ s2 ∧ matches r1 (c :: s1) ∧ matches r2 s2.
Proof.
  rewrite matches_cat. split.
  - intros (s1 & s2 & Heq & H1 & H2). destruct s1 as [|c1 s1]; simpl in Heq.
    + subst. by left.
    + injection Heq as -> ->. right. by exists s1, s2.
  - intros [[H1 H2]|(s1 & s2 & -> & H1 & H2)].
    + by exists [], (c :: s).
    + by exists (c :: s1), s2.
Qed.

Lemma deriv_spec c r s : matches (deriv c r) s ↔ matches r (c :: s).
Proof.
  revert s. induction r as [| |p|r1 IH1 r2 IH2|r1 IH1 r2 IH2|r IH]; intros s; simpl.
  - by rewrite !matches_void.
  - rewrite matches_void, matches_eps. done.
  - rewrite matches_class. destruct (p c) eqn:Hp.
    + rewrite matches_eps. split.
      * intros ->. by exists c.
      * by intros (c' & [= -> ->] & _).
    + rewrite matches_void. split; [done|].
      intros (c' & [= -> ->] & Hc). congruence.
  - assert (matches (Cat (deriv c r1) r2) s ↔
            ∃ s1 s2, s = s1 ++ s2 ∧ matches r1 (c :: s1) ∧ matches r2 s2) as Hcat.
    { rewrite matches_cat. by setoid_rewrite IH1. }
    rewrite matches_cat_cons. destruct (nullable r1) eqn:Hn.
    + apply nullable_spec in Hn. rewrite matches_alt, Hcat, IH2. split.
      * intros [H|H]; [by right|by left].
      * intros [[_ H]|H]; [by right|by left].
    + rewrite Hcat. split; [by right|]. intros [[H1 _]|H]; [|done].
      apply nullable_spec in H1. congruence.
  - by rewrite !matches_alt, IH1, IH2.
  - rewrite matches_cat. setoid_rewrite IH. split.
    + intros (s1 & s2 & -> & H1 & H2). by apply (MStarCons _ (c :: s1) s2).
    + apply matches_star_cons.
Qed.

(** The matcher decides the language of the pattern. *)
Lemma test_spec r s : test r s = true ↔ matches r s.
Proof.
  revert r. induction s as [|c s IH]; intros r; simpl.
  - apply nullable_spec.
  - by rewrite IH, deriv_spec.
Qed.

Lemma matches_star_class p s :
  matches (Star (Class p)) s ↔ Forall (fun c => p c = true) s.
Proof.
  split.
  - remember (Star (Class p)) as r eqn:Hr. intros H.
    induction H as [|q d| | | | |r0 s1 s2 H1 _ H2 IH2]; try done.
    injection Hr as ->. apply matches_class in H1 as (c & -> & Hc).
    constructor; [done|by apply IH2].
  - induction 1 as [|c s Hc _ IH]; [constructor|].
    apply (MStarCons _ [c] s); [by constructor|done].
Qed.

Lemma matches_plus_class p s :
  matches (Plus (Class p)) s ↔ s ≠ [] ∧ Forall (fun c => p c = true) s.
Proof.
  unfold Plus. rewrite matches_cat. setoid_rewrite matches_class.
  setoid_rewrite matches_star_class. split.
  - intros (? & s2 & -> & (c & -> & Hc) & Hs). split; [done|by constructor].
  - intros [Hne Hall]. destruct Hall as [|c s Hc Hs]; [done|].
    exists [c], s. eauto.
Qed.

Lemma matches_char (k : N) s : matches (Class (N.eqb k)) s ↔ s = [k].
Proof.
  rewrite matches_class. split.
  - intros (c & -> & Hc). by apply N.eqb_eq in Hc as ->.
  - intros ->. exists k. split; [done|apply N.eqb_refl].
Qed.

End RegexProperties.

(** ** Registration form *)

Section RegisterProperties.
Import Js Register.
#[local] Open Scope list_scope.

Lemma check_username_none fd : check_username fd = None ↔ spec_username_ok fd.
Proof.
  unfold check_username, spec_username_ok.
  case_bool_decide as Ht; [by split; [|intros [? _]]|].
  destruct (Nat.ltb_spec (length (username fd)) 3) as [Hl|Hl].
  - split; [done|]. intros [_ ?]. lia.
  - split; [|done]. intros _. split; [done|lia].
Qed.

Lemma check_email_none fd : check_email fd = None ↔ spec_email_ok fd.
Proof.
  unfold check_email, spec_email_ok.
  case_bool_decide as Ht; [by split; [|intros [? _]]|].
  destruct (Regex.test emailRegex (email fd)); simpl.
  - by split.
  - split; [done|]. by intros [_ ?].
Qed.

Lemma check_password_none fd : check_password fd = None ↔ spec_password_ok fd.
Proof.
  unfold check_password, spec_password_ok.
  case_bool_decide as Ht; [by split; [|intros [? _]]|].
  destruct (Nat.ltb_spec (length (password fd)) 8) as [Hl|Hl].
  - split; [done|]. intros [_ ?]. lia.
  - split; [|done]. intros _. split; [done|lia].
Qed.

Lemma check_password2_none fd : check_password2 fd = None ↔ spec_password2_ok fd.
Proof.
  unfold check_password2, spec_password2_ok.
  case_bool_decide as Ht; [by split; [|intros [? _]]|].
  case_bool_decide as He; simpl.
  - by split.
  - split; [done|]. intros [_ ?]. congruence.
Qed.

Lemma emailRegex_shape s :
  Regex.test emailRegex s = true ↔
  ∃ a b c, s = a ++ [64%N] ++ b ++ [46%N] ++ c ∧
           email_part a ∧ email_part b ∧ email_part c.
Proof.
  rewrite test_spec. unfold emailRegex, email_part. split.
  - intros (a & s1 & -> & Ha%matches_plus_class & H1)%matches_cat.
    apply matches_cat in H1 as (x & s2 & -> & Hx & H2).
    apply matches_char in Hx as ->.
    apply matches_cat in H2 as (b & s3 & -> & Hb%matches_plus_class & H3).
    apply matches_cat in H3 as (y & c & -> & Hy & Hc%matches_plus_class).
    apply matches_char in Hy as ->.
    exists a, b, c. split; [reflexivity|]. auto.
  - intros (a & b & c & -> & Ha & Hb & Hc).
    apply matches_cat. exists a, ([64%N] ++ b ++ [46%N] ++ c).
    split; [reflexivity|]. split; [apply matches_plus_class, Ha|].
    apply matches_cat. exists [64%N], (b ++ [46%N] ++ c).
    split; [reflexivity|]. split; [apply matches_char; reflexivity|].
    apply matches_cat. exists b, ([46%N] ++ c).
    split; [reflexivity|]. split; [apply matches_plus_class, Hb|].
    apply matches_cat. exists [46%N], c.
    split; [reflexivity|].
    split; [apply matches_char; reflexivity|apply matches_plus_class, Hc].
Qed.

(** Each check writes under its own key and under no other. *)
Lemma newErrors_lookup fd k :
  newErrors fd !! k =
    if bool_decide (k = "password2") then JStr <$> check_password2 fd
    else if bool_decide (k = "password") then JStr <$> check_password fd
    else if bool_decide (k = "email") then JStr <$> check_email fd
    else if bool_decide (k = "username") then JStr <$> check_username fd
    else None.
Proof.
  unfold newErrors, record_error.
  destruct (check_password2 fd), (check_password fd), (check_email fd),
    (check_username fd);
    repeat case_bool_decide; simplify_map_eq; done.
Qed.

Lemma newErrors_empty fd :
  newErrors fd = ∅ ↔
  check_username fd = None ∧ check_email fd = None ∧
  check_password fd = None ∧ check_password2 fd = None.
Proof.
  split.
  - intros He.
    pose proof (newErrors_lookup fd "username") as Hu.
    pose proof (newErrors_lookup fd "email") as Hm.
    pose proof (newErrors_lookup fd "password") as Hp.
    pose proof (newErrors_lookup fd "password2") as Hq.
    rewrite He, lookup_empty in Hu, Hm, Hp, Hq. simpl in *.
    repeat split.
    + by destruct (check_username fd).
    + by destruct (check_email fd).
    + by destruct (check_password fd).
    + by destruct (check_password2 fd).
  - intros (Hu & Hm & Hp & Hq). unfold newErrors. by rewrite Hu, Hm, Hp, Hq.
Qed.

Lemma validateForm_true st :
  (validateForm st).2 = true ↔ spec_valid (form st).
Proof.
  unfold validateForm, spec_valid. simpl.
  rewrite bool_decide_eq_true, length_fmap, length_zero_iff_nil,
    map_to_list_empty_iff, newErrors_empty.
  by rewrite check_username_none, check_email_none, check_password_none,
    check_password2_none.
Qed.


Lemma handleSubmit_rejected_form st r :
  (validateForm st).2 = false →
  handleSubmit st r = ((validateForm st).1, [PreventDefault]).
Proof.
  unfold handleSubmit. destruct (validateForm st) as [st1 ok]. simpl.
  by intros ->.
Qed.






(** A form that fails validation: the handler stops after [validateForm]. *)
Lemma handleSubmit_invalid st r :
  ¬ spec_valid (form st) →
  handleSubmit st r =
    ({| form := form st; errors := newErrors (form st);
        isLoading := isLoading st; success := success st |}, [PreventDefault]).
Proof.
  intros Hbad.
  assert ((validateForm st).2 = false) as Hv.
  { destruct (validateForm st).2 eqn:E; [|done].
    by apply validateForm_true in E. }
  by rewrite (handleSubmit_rejected_form st r Hv).
Qed.



(** C6. Whenever the confirmation is non-empty and differs from the
    password, submitting records the mismatch under the key [password2]
    and sends no register request. *)
Theorem register_mismatch_rejected (st : state) (r : outcome unit) :
  password2 (form st) ≠ [] →
  password2 (form st) ≠ password (form st) →
  errors (handleSubmit st r).1 !! "password2"
    = Some (JStr (lit "Passwords do not match")) ∧
  sends_register (handleSubmit st r).2 = false.
Proof.
  intros Hne Hdiff.
  assert (¬ spec_valid (form st)) as Hbad by (intros (_ & _ & _ & _ & ?); done).
  rewrite (handleSubmit_invalid st r Hbad). simpl.
  split; [|done].
  rewrite newErrors_lookup. simpl. unfold check_password2.
  rewrite bool_decide_eq_false_2 by done.
  rewrite bool_decide_eq_false_2 by congruence. done.
Qed.

Example register_bob_sends :
  (handleSubmit (sample_form "bob12" "longenough1" "longenough1") (Resolved tt)).2
  = [PreventDefault;
     CallRegister (form (sample_form "bob12" "longenough1" "longenough1"));
     NavigateAfter "/login" 2000].
Proof. vm_compute. reflexivity. Qed.



Lemma register_mismatch_witness :
  errors (handleSubmit (sample_form "bob12" "longenough1" "longenough2")
            (Resolved tt)).1 !! "password2"
    = Some (JStr (lit "Passwords do not match")) ∧
  sends_register
    (handleSubmit (sample_form "bob12" "longenough1" "longenough2") (Resolved tt)).2 = false.
Proof.
  apply (register_mismatch_rejected
           (sample_form "bob12" "longenough1" "longenough2") (Resolved tt)).
  - vm_compute. discriminate.
  - vm_compute. discriminate.
Defined.

End RegisterProperties.

(** ** Login form *)

Section LoginProperties.
Import Js Login.

(** A form that passes validation reaches the [try] block. *)
Lemma handleSubmit_resolved w data :
  validateForm (form (cell w)) = true →
  handleSubmit w (Resolved data) =
    ({| cell := {| form := form (cell w); errors := ∅; isLoading := false |};
        localStorage := (on_resolved data (localStorage w)).1 |},
     PreventDefault :: CallLogin (form (cell w)) :: (on_resolved data (localStorage w)).2).
Proof.
  intros Hv. unfold handleSubmit. rewrite Hv. simpl.
  by destruct (on_resolved data (localStorage w)).
Qed.

Lemma handleSubmit_rejected w e :
  validateForm (form (cell w)) = true →
  handleSubmit w (Rejected e) =
    ({| cell := {| form := form (cell w); errors := {[ "general" := on_rejected e ]};
                   isLoading := false |};
        localStorage := localStorage w |},
     [PreventDefault; CallLogin (form (cell w))]).
Proof. intros Hv. unfold handleSubmit. by rewrite Hv. Qed.

Lemma on_rejected_truthy e : field_truthy (on_rejected e) = true.
Proof.
  unfold on_rejected.
  destruct (body_truthy (response_data e)); [|done].
  by destruct (field_truthy (prop (response_data e) "detail")) eqn:E.
Qed.

(** C7, as stated, fails. The form is valid and the request is sent; the
    server answers with an empty body, which the HTTP client hands over as
    the empty string. A server response exists and carries no detail, yet
    the message shown is the connectivity one and not the
    invalid-credentials one. *)
Lemma login_empty_body_counterexample :
  (handleSubmit wrong_password (Rejected empty_body)).2
    = [PreventDefault; CallLogin (form (cell wrong_password))] ∧
  is_Some (response empty_body) ∧
  prop (response_data empty_body) "detail" = FVal JUndefined ∧
  errors (cell (handleSubmit wrong_password (Rejected empty_body)).1) !! "general"
    = Some unable_to_connect ∧
  unable_to_connect ≠ invalid_credentials.
Proof.
  split; [done|]. split; [by eexists|]. split; [done|]. split; [done|]. done.
Qed.

(** C7, amended. After a failed login attempt the [errors] cell holds one
    entry, under [general], and no field message is shown. The entry is the
    [detail] of the response body when the body is there and has one, the
    invalid-credentials message when the body is there without a detail,
    and the connectivity message when there is no response or the response
    has no body. Nothing is stored and no navigation is made. *)
Theorem login_failure_general_message (w : world) (e : error) :
  validateForm (form (cell w)) = true →
  let w' := (handleSubmit w (Rejected e)).1 in
  dom (errors (cell w')) = ({["general"]} : gset string) ∧
  is_Some (shown (cell w') "general") ∧
  shown (cell w') "username" = None ∧
  shown (cell w') "password" = None ∧
  (∀ d, response e = Some d → body_truthy d = true →
        field_truthy (prop d "detail") = true →
        errors (cell w') !! "general" = Some (prop d "detail")) ∧
  (∀ d, response e = Some d → body_truthy d = true →
        field_truthy (prop d "detail") = false →
        errors (cell w') !! "general" = Some invalid_credentials) ∧
  (response e = None ∨ (∃ d, response e = Some d ∧ body_truthy d = false) →
        errors (cell w') !! "general" = Some unable_to_connect) ∧
  localStorage w' = localStorage w ∧
  (handleSubmit w (Rejected e)).2 = [PreventDefault; CallLogin (form (cell w))].
Proof.
  intros Hv. rewrite (handleSubmit_rejected w e Hv). simpl.
  split; [by rewrite dom_singleton_L|].
  unfold shown. simpl. rewrite lookup_singleton_eq, on_rejected_truthy.
  split; [by eexists|].
  rewrite !lookup_singleton_ne by done.
  split; [done|]. split; [done|].
  unfold on_rejected, response_data.
  split; [|split; [|split]].
  - intros d -> Hb Hd. by rewrite Hb, Hd.
  - intros d -> Hb Hd. by rewrite Hb, Hd.
  - intros [->|(d & -> & Hb)]; [done|]. by rewrite Hb.
  - done.
Qed.

Lemma login_failure_witness :
  errors (cell (handleSubmit wrong_password (Rejected empty_body)).1) !! "general"
    = Some unable_to_connect.
Proof.
  pose proof (login_failure_general_message wrong_password empty_body eq_refl) as H.
  cbv zeta in H. destruct H as (_ & _ & _ & _ & _ & _ & H & _).
  apply H. right. by exists (BVal (JStr [])).
Defined.

(** C10. A resolved login whose body has neither a truthy [access] nor a
    truthy [token] stores nothing, navigates nowhere and leaves the
    [errors] cell empty, so that no message is shown. *)
Theorem login_without_token_is_silent (w : world) (data : jsbody) :
  validateForm (form (cell w)) = true →
  field_truthy (prop data "access") = false →
  field_truthy (prop data "token") = false →
  localStorage (handleSubmit w (Resolved data)).1 = localStorage w ∧
  (handleSubmit w (Resolved data)).2 = [PreventDefault; CallLogin (form (cell w))] ∧
  errors (cell (handleSubmit w (Resolved data)).1) = ∅ ∧
  (∀ k, shown (cell (handleSubmit w (Resolved data)).1) k = None).
Proof.
  intros Hv Ha Ht. rewrite (handleSubmit_resolved w data Hv).
  unfold on_resolved. rewrite Ha, Ht. simpl.
  repeat split; try done.
Qed.

Lemma login_without_token_witness :
  localStorage (handleSubmit bob_login (Resolved (BObj [("user", FVal (JNum 7))]))).1 = ∅ ∧
  (handleSubmit bob_login (Resolved (BObj [("user", FVal (JNum 7))]))).2
    = [PreventDefault; CallLogin (form (cell bob_login))].
Proof.
  destruct (login_without_token_is_silent bob_login
              (BObj [("user", FVal (JNum 7))]) eq_refl eq_refl eq_refl)
    as (H1 & H2 & _).
  split; [exact H1|exact H2].
Defined.

End LoginProperties.

(** ** Dashboard *)

Section DashboardProperties.
Import Js Dashboard.

Lemma exec_bind {A B} (m : M A) (k : A → M B) (w : world) :
  exec (bind m k) w = exec (k (m w).1) (m w).2.
Proof. unfold exec, bind. by destruct (m w). Qed.

Lemma exec_ret {A} (a : A) (w : world) : exec (ret a) w = w.
Proof. done. Qed.

(** Running a handler on a world taken apart into its cells: only the
    handlers and the primitives of the monad are unfolded. *)
Ltac run_handler :=
  lazy [exec bind ret modify emit getItem removeItem get_state
        handleLogout handleSearch handleEditClick handleEditChange
        handleEditSubmit handleDeleteUser fetchProfile fetchUsers
        drop_session setUser setIsLoading setIsAdmin setUsers setSearchQuery
        setUsersLoading setEditingUser setEditForm setMessage start initial
        cell localStorage log user isLoading isAdmin users searchQuery
        usersLoading editingUser editForm message fst snd negb].

Ltac open_world w :=
  let st := fresh "st" in
  destruct w as [st ? ?]; destruct st;
  cbn [cell localStorage log user isLoading isAdmin users searchQuery
       usersLoading editingUser editForm message] in *.

(** [fetchUsers] touches the users list, its spinner and the message, and
    logs one [getUsers] call with the current query. *)
Lemma exec_fetchUsers ru w :
  ∃ us ld msg,
    exec (fetchUsers ru) w =
      {| cell := {| user := user (cell w); isLoading := isLoading (cell w);
                    isAdmin := isAdmin (cell w); users := us;
                    searchQuery := searchQuery (cell w); usersLoading := ld;
                    editingUser := editingUser (cell w);
                    editForm := editForm (cell w); message := msg |};
         localStorage := localStorage w;
         log := log w ++ [GetUsers (searchQuery (cell w))] |}.
Proof. open_world w. destruct ru as [us|e]; run_handler; eauto. Qed.

Lemma exec_users_effect old ru w :
  exec (users_effect old ru) w = w ∨
  (truthy (isAdmin (cell w)) = true ∧ exec (users_effect old ru) w = exec (fetchUsers ru) w).
Proof.
  unfold users_effect. rewrite exec_bind. simpl.
  case_bool_decide; [by left|].
  destruct (truthy (isAdmin (cell w))) eqn:E; [by right|by left].
Qed.

Lemma exec_step ev ru w :
  exec (step ev ru) w =
    match handler (cell w) ev ru with
    | Some h => exec (users_effect (cell w) ru) (exec h w)
    | None => w
    end.
Proof.
  unfold step. rewrite exec_bind. simpl.
  destruct (handler (cell w) ev ru); [|done].
  by rewrite exec_bind.
Qed.

Lemma edit_fields_insert (i : edit_input) (v : jsval) (m : gmap string jsval) :
  dom m = edit_fields → dom (<[input_name i := v]> m) = edit_fields.
Proof.
  intros Hm. rewrite dom_insert_L, Hm. unfold edit_fields.
  destruct i; simpl; set_solver.
Qed.

Lemma edit_fields_literal (a b c d e f : jsval) :
  dom (<["is_staff" := a]> (<["is_active" := b]> (<["last_name" := c]>
        (<["first_name" := d]> (<["email" := e]>
          (<["username" := f]> (∅ : gmap string jsval))))))) = edit_fields.
Proof. rewrite !dom_insert_L, dom_empty_L. unfold edit_fields. set_solver. Qed.

(** The calls a handler added to the log, each allowed in the state the
    handler started from. *)
Ltac solve_call :=
  cbn [call_allowed cell localStorage log user isLoading isAdmin users
       searchQuery usersLoading editingUser editForm message];
  first
    [ exact I
    | reflexivity
    | left; assumption
    | right; by eexists
    | split; [reflexivity|eexists; split; reflexivity]
    | split; [assumption|];
      do 2 eexists; split; [eassumption|]; split; [reflexivity|assumption] ].

Ltac solve_log :=
  first
    [ exists []; split; [symmetry; apply app_nil_r|constructor]
    | eexists; split;
      [ rewrite <- ?app_assoc; reflexivity
      | cbn [app]; repeat (constructor; [solve_call|]); constructor ] ].

Ltac solve_summary :=
  split; run_handler; auto; try solve_log;
    try (by intros [? ?]); try (by intros _ [? ?]).

Lemma handler_summary ev ru w h :
  handler (cell w) ev ru = Some h → step_summary w (exec h w).
Proof.
  intros Hh. destruct ev; cbn [handler] in Hh.
  - (* ClickLogout *)
    destruct (isLoading (cell w)) eqn:E; simplify_eq.
    open_world w. solve_summary.
  - (* ChangeSearch *)
    destruct (admin_panel_shown (cell w)) eqn:E; simplify_eq.
    open_world w. solve_summary.
  - (* ClickEdit *)
    destruct (table_shown (cell w)) eqn:E; [|done].
    destruct (users (cell w) !! row) as [u|] eqn:Hu; simplify_eq.
    apply andb_prop in E as [[_ Ha]%andb_prop _].
    open_world w.
    split; run_handler; try (intros _ _; apply edit_fields_literal); auto;
      solve_log.
  - (* ClickDelete *)
    destruct (table_shown (cell w)) eqn:E; [|done].
    destruct (users (cell w) !! row) as [u|] eqn:Hu; [|done].
    destruct (delete_button_shown (cell w) u) eqn:Hd; simplify_eq.
    pose proof E as E'.
    apply andb_prop in E' as [[_ Ha]%andb_prop _].
    open_world w.
    destruct confirmed, r as [[]|e], ru as [us|e']; solve_summary.
  - (* ChangeEdit *)
    destruct (modal_shown (cell w)) eqn:E; simplify_eq.
    open_world w. solve_summary.
    intros Hf Hs. apply edit_fields_insert. auto.
  - (* SubmitEdit *)
    destruct (modal_shown (cell w)) eqn:E; simplify_eq.
    apply andb_prop in E as [_ Hs%bool_decide_eq_true].
    destruct Hs as [u Hu]. open_world w. subst.
    destruct r as [[]|e], ru as [us|e']; solve_summary.
  - (* CloseEdit *)
    destruct (modal_shown (cell w)) eqn:E; simplify_eq.
    open_world w. solve_summary.
Qed.

Lemma step_summary_refl w : step_summary w w.
Proof.
  split; auto. exists []. split; [by rewrite app_nil_r|constructor].
Qed.

Lemma step_summarised ev ru w : step_summary w (exec (step ev ru) w).
Proof.
  rewrite exec_step.
  destruct (handler (cell w) ev ru) as [h|] eqn:Hh; [|apply step_summary_refl].
  pose proof (handler_summary ev ru w h Hh) as [Hu Ha Hl Hs (new & Hlog & Hnew) Hm Hf].
  destruct (exec_users_effect (cell w) ru (exec h w)) as [->|[Ht ->]]; [by split; eauto|].
  destruct (exec_fetchUsers ru (exec h w)) as (us & ld & msg & ->).
  split; simpl; auto.
  exists (new ++ [GetUsers (searchQuery (cell (exec h w)))])%list. split.
  - by rewrite Hlog, app_assoc.
  - apply Forall_app. split; [done|]. constructor; [|constructor].
    simpl. left. by rewrite <- Ha.
Qed.

(** Induction over the events of a session. *)
Lemma run_invariant (P : world → Prop) :
  (∀ w ev ru, P w → P (exec (step ev ru) w)) →
  ∀ evs w, P w → P (exec (run evs) w).
Proof.
  intros Hstep evs. induction evs as [|[ev ru] evs IH]; intros w Hw; [done|].
  simpl. rewrite exec_bind. apply IH, Hstep, Hw.
Qed.

Lemma session_unfold ls r ru evs :
  session ls r ru evs = exec (run evs) (exec (mount r ru) (start ls)).
Proof. unfold session. by rewrite exec_bind. Qed.

Lemma truthy_or a b : truthy (logical_or a b) = truthy a || truthy b.
Proof. unfold logical_or. by destruct (truthy a) eqn:E; simpl. Qed.

(** *** Mounting *)

(** With a token in storage and a profile in the response, mounting stores
    the profile, classifies the caller and leaves the loading screen. *)
Lemma mount_profile ls p ru :
  no_token (ls !! "token") = false →
  let w := exec (mount (Resolved (Some p)) ru) (start ls) in
  user (cell w) = Some p ∧
  isAdmin (cell w) = logical_or (is_staff p) (is_superuser p) ∧
  isLoading (cell w) = false ∧
  localStorage w = ls.
Proof.
  intros Ht. unfold mount. rewrite exec_bind.
  set (w1 := (fetchProfile (Resolved (Some p)) (start ls)).2).
  assert (user (cell w1) = Some p ∧
          isAdmin (cell w1) = logical_or (is_staff p) (is_superuser p) ∧
          isLoading (cell w1) = false ∧ localStorage w1 = ls) as (H1 & H2 & H3 & H4).
  { subst w1. run_handler. by rewrite Ht. }
  destruct (exec_users_effect initial ru w1) as [->|[_ ->]]; [done|].
  by destruct (exec_fetchUsers ru w1) as (us & ld & msg & ->).
Qed.

(** However mounting goes, the caller is classified as admin only on a
    fetched profile with one of the two flags, the edit modal is closed,
    and the only calls are the profile request, a navigation, and a user
    list request for an admin. *)
Lemma mount_summary ls r ru :
  let w := exec (mount r ru) (start ls) in
  (truthy (isAdmin (cell w)) = true →
     ∃ p, r = Resolved (Some p) ∧ admin_flags p = true) ∧
  editingUser (cell w) = None ∧
  Forall (fun c => match c with
                   | GetProfile | Navigate _ => True
                   | GetUsers _ => truthy (isAdmin (cell w)) = true
                   | _ => False
                   end) (log w).
Proof.
  unfold mount. rewrite exec_bind.
  set (w1 := (fetchProfile r (start ls)).2).
  assert ((truthy (isAdmin (cell w1)) = true →
             ∃ p, r = Resolved (Some p) ∧ admin_flags p = true) ∧
          editingUser (cell w1) = None ∧
          Forall (fun c => match c with
                           | GetProfile | Navigate _ => True
                           | _ => False
                           end) (log w1)) as (H1 & H2 & H3).
  { subst w1. run_handler.
    destruct (no_token (ls !! "token")); simpl.
    - repeat split; try done. by repeat constructor.
    - destruct r as [[p|]|e]; simpl; repeat split; try done;
        try (by repeat constructor).
      rewrite truthy_or. intros Hp. by exists p. }
  destruct (exec_users_effect initial ru w1) as [->|[Ht ->]].
  - repeat split; try done.
    eapply Forall_impl; [exact H3|]. intros []; simpl; done.
  - destruct (exec_fetchUsers ru w1) as (us & ld & msg & ->). simpl.
    repeat split; try done.
    apply Forall_app. split.
    + eapply Forall_impl; [exact H3|]. intros []; simpl; done.
    + by repeat constructor.
Qed.

(** A profile fetch that fails, by rejection or on a body without a
    profile, removes both tokens and sends the browser to the login page. *)
Lemma mount_failure ls r ru :
  no_token (ls !! "token") = false →
  (∀ p, r ≠ Resolved (Some p)) →
  let w := exec (mount r ru) (start ls) in
  localStorage w = delete "refreshToken" (delete "token" ls) ∧
  log w = [GetProfile; Navigate "/login"] ∧
  isLoading (cell w) = false ∧
  isAdmin (cell w) = JBool false.
Proof.
  intros Ht Hr. unfold mount. rewrite exec_bind.
  set (w1 := (fetchProfile r (start ls)).2).
  assert (localStorage w1 = delete "refreshToken" (delete "token" ls) ∧
          log w1 = [GetProfile; Navigate "/login"] ∧
          isLoading (cell w1) = false ∧
          isAdmin (cell w1) = JBool false) as (H1 & H2 & H3 & H4).
  { subst w1. run_handler. rewrite Ht.
    destruct r as [[p|]|e]; [by destruct (Hr p)|done|done]. }
  destruct (exec_users_effect initial ru w1) as [->|[Ha _]]; [done|].
  by rewrite H4 in Ha.
Qed.

(** *** The admin panel *)

(** C1. On every fetched profile the dashboard classifies the caller as
    admin exactly when [is_staff] or [is_superuser] holds on it, and from
    then on, whatever happens on the page, the user-management panel is
    shown if and only if one of the two flags holds. *)
Theorem dashboard_admin_iff_flags (ls : gmap string (list N)) (p : User)
    (ru : outcome (option (list User)))
    (evs : list (event * outcome (option (list User)))) :
  no_token (ls !! "token") = false →
  let w := session ls (Resolved (Some p)) ru evs in
  (truthy (isAdmin (cell w)) = true ↔
     truthy (is_staff p) = true ∨ truthy (is_superuser p) = true) ∧
  (admin_panel_shown (cell w) = true ↔
     truthy (is_staff p) = true ∨ truthy (is_superuser p) = true).
Proof.
  intros Ht. simpl. rewrite session_unfold.
  destruct (mount_profile ls p ru Ht) as (_ & Ha & Hl & _).
  assert (isAdmin (cell (exec (run evs) (exec (mount (Resolved (Some p)) ru) (start ls))))
            = logical_or (is_staff p) (is_superuser p) ∧
          isLoading (cell (exec (run evs) (exec (mount (Resolved (Some p)) ru) (start ls))))
            = false) as [Ha' Hl'].
  { apply (run_invariant (fun w => isAdmin (cell w) = logical_or (is_staff p) (is_superuser p)
                                   ∧ isLoading (cell w) = false)); [|done].
    intros w ev ru' [H1 H2].
    destruct (step_summarised ev ru' w) as [_ Hsa Hsl _ _ _ _].
    by rewrite Hsa, Hsl. }
  unfold admin_panel_shown. rewrite Ha', Hl', truthy_or. simpl.
  by rewrite orb_true_iff.
Qed.

(** C2. The delete button of a row is rendered exactly when the row is not
    a superuser and its id differs ([!==]) from the caller's. Clicking where
    the button of a superuser's row or of the caller's own row would be
    does nothing at all; and whatever the event, each [deleteUser] call it
    makes targets a row of the table that is not a superuser and whose id
    is not the caller's. *)
Theorem dashboard_delete_guard (w : world) :
  (∀ u, delete_button_shown (cell w) u = true ↔
        truthy (is_superuser u) = false ∧ id u ≠ caller_id (cell w)) ∧
  (∀ row u confirmed r ru,
      users (cell w) !! row = Some u →
      truthy (is_superuser u) = true ∨ id u = caller_id (cell w) →
      exec (step (ClickDelete row confirmed r) ru) w = w) ∧
  (∀ ev ru, ∃ new : list call,
      log (exec (step ev ru) w) = (log w ++ new)%list ∧
      ∀ target, DeleteUser target ∈ new →
        ∃ row u, users (cell w) !! row = Some u ∧ target = id u ∧
                 truthy (is_superuser u) = false ∧ id u ≠ caller_id (cell w)).
Proof.
  assert (∀ u, delete_button_shown (cell w) u = true ↔
               truthy (is_superuser u) = false ∧ id u ≠ caller_id (cell w)) as Hshown.
  { intros u. unfold delete_button_shown, strict_neq, strict_eq.
    rewrite andb_true_iff, !negb_true_iff, bool_decide_eq_false. done. }
  split; [done|]. split.
  - intros row u confirmed r ru Hrow Hbad.
    rewrite exec_step. cbn [handler].
    destruct (table_shown (cell w)); [|done]. rewrite Hrow.
    destruct (delete_button_shown (cell w) u) eqn:E; [|done].
    apply Hshown in E as [Hsu Hid]. destruct Hbad; congruence.
  - intros ev ru.
    destruct (step_summarised ev ru w) as [_ _ _ _ (new & Hlog & Hnew) _ _].
    exists new. split; [done|].
    intros target Hin.
    rewrite Forall_forall in Hnew. specialize (Hnew _ Hin). simpl in Hnew.
    destruct Hnew as (_ & row & u & Hrow & -> & Hd).
    exists row, u. apply Hshown in Hd as [Hsu Hid]. done.
Qed.

(** C8. In every session, the body of each update request has exactly the
    keys [username], [email], [first_name], [last_name], [is_active] and
    [is_staff]; [is_superuser] is not among them. *)
Theorem dashboard_update_payload_fields (ls : gmap string (list N))
    (r : outcome (option User)) (ru : outcome (option (list User)))
    (evs : list (event * outcome (option (list User))))
    (target : jsval) (body : gmap string jsval) :
  UpdateUser target body ∈ log (session ls r ru evs) →
  dom body = ({["username"; "email"; "first_name"; "last_name";
               "is_active"; "is_staff"]} : gset string) ∧
  "is_superuser" ∉ dom body.
Proof.
  intros Hin.
  assert (dom body = edit_fields) as Hd.
  { rewrite session_unfold in Hin. revert Hin.
    set (P := fun w : world =>
      (is_Some (editingUser (cell w)) → dom (editForm (cell w)) = edit_fields) ∧
      ∀ t b, UpdateUser t b ∈ log w → dom b = edit_fields).
    assert (P (exec (run evs) (exec (mount r ru) (start ls)))) as [_ HP];
      [|by apply HP].
    apply run_invariant.
    - intros w ev ru' [Hf Hl].
      destruct (step_summarised ev ru' w) as [_ _ _ _ (new & Hlog & Hnew) _ Hf'].
      split; [by apply Hf'|].
      intros t b. rewrite Hlog, elem_of_app. intros [Hold|Hnw]; [by eapply Hl|].
      rewrite Forall_forall in Hnew. specialize (Hnew _ Hnw). simpl in Hnew.
      destruct Hnew as (-> & u & Hu & _). apply Hf. by rewrite Hu.
    - destruct (mount_summary ls r ru) as (_ & He & Hl). split.
      + rewrite He. by intros [? ?].
      + intros t b Hb. rewrite Forall_forall in Hl. by apply Hl in Hb. }
  rewrite Hd. unfold edit_fields. split; [done|].
  rewrite !elem_of_union, !elem_of_singleton. intros H.
  repeat (destruct H as [H|H]; [|done]). done.
Qed.

(** C9. In every session in which the fetched profile has neither
    [is_staff] nor [is_superuser] set, or in which no profile was fetched
    at all, no user-list request is ever made. *)
Theorem dashboard_no_list_request_for_non_admin (ls : gmap string (list N))
    (r : outcome (option User)) (ru : outcome (option (list User)))
    (evs : list (event * outcome (option (list User)))) :
  (∀ p, r = Resolved (Some p) →
        truthy (is_staff p) = false ∧ truthy (is_superuser p) = false) →
  ∀ q, GetUsers q ∉ log (session ls r ru evs).
Proof.
  intros Hnon q. rewrite session_unfold.
  set (P := fun w : world =>
    truthy (isAdmin (cell w)) = false ∧ editingUser (cell w) = None ∧
    ∀ q, GetUsers q ∉ log w).
  assert (P (exec (run evs) (exec (mount r ru) (start ls)))) as (_ & _ & HP);
    [|by apply HP].
  apply run_invariant.
  - intros w ev ru' (Ha & He & Hl).
    destruct (step_summarised ev ru' w) as [_ Hsa _ _ (new & Hlog & Hnew) Hm _].
    split; [by rewrite Hsa|]. split.
    + destruct (editingUser (cell (exec (step ev ru') w))) eqn:E; [|done].
      destruct Hm as [[? Hs]|Ht]; [by eexists|congruence..].
    + intros q'. rewrite Hlog, elem_of_app. intros [Hold|Hnw]; [by eapply Hl|].
      rewrite Forall_forall in Hnew. specialize (Hnew _ Hnw). simpl in Hnew.
      destruct Hnew as [Ht|[? Hs]]; congruence.
  - destruct (mount_summary ls r ru) as (Ha & He & Hl).
    assert (truthy (isAdmin (cell (exec (mount r ru) (start ls)))) = false) as Hf.
    { destruct (truthy (isAdmin (cell (exec (mount r ru) (start ls))))) eqn:E; [|done].
      destruct (Ha eq_refl) as (p & -> & Hp).
      destruct (Hnon p eq_refl) as [H1 H2].
      unfold admin_flags in Hp. by rewrite H1, H2 in Hp. }
    split; [done|]. split; [done|].
    intros q' Hin. rewrite Forall_forall in Hl. apply Hl in Hin. congruence.
Qed.

(** *** Sample sessions *)

(** The admin tries to delete each of the three rows: only the plain user's
    row has a button, and only that click reaches the API. *)
Example delete_clicks_of_admin :
  filter (fun c => is_DeleteUser c = true)
    (log (session with_token (Resolved (Some (sample_user 1 "ann" true false)))
            sample_rows
            [(ClickDelete 0 true (Resolved tt), sample_rows);
             (ClickDelete 2 true (Resolved tt), sample_rows);
             (ClickDelete 1 true (Resolved tt), sample_rows)]))
  = [DeleteUser (JNum 2)].
Proof. vm_compute. reflexivity. Qed.

Lemma dashboard_delete_guard_witness :
  exec (step (ClickDelete 2 true (Resolved tt)) sample_rows)
       (session with_token (Resolved (Some (sample_user 1 "ann" true false)))
          sample_rows [])
  = session with_token (Resolved (Some (sample_user 1 "ann" true false)))
      sample_rows [].
Proof.
  destruct (dashboard_delete_guard
              (session with_token (Resolved (Some (sample_user 1 "ann" true false)))
                 sample_rows [])) as (_ & H & _).
  apply (H 2%nat (sample_user 3 "root" false true)).
  - reflexivity.
  - left. reflexivity.
Defined.

Lemma dashboard_admin_witness :
  admin_panel_shown
    (cell (session with_token (Resolved (Some (sample_user 1 "ann" true false)))
             sample_rows [(ChangeSearch (lit "bo"), sample_rows)])) = true.
Proof.
  destruct (dashboard_admin_iff_flags with_token (sample_user 1 "ann" true false)
              sample_rows [(ChangeSearch (lit "bo"), sample_rows)] eq_refl)
    as [_ H].
  apply H. left. reflexivity.
Defined.

Lemma sample_edit_log :
  log (session with_token (Resolved (Some (sample_user 1 "ann" true false)))
         sample_rows sample_edit)
  = [GetProfile; GetUsers []; UpdateUser (JNum 2) sample_payload; GetUsers []].
Proof. vm_compute. reflexivity. Qed.

Lemma dashboard_update_payload_witness :
  dom sample_payload = ({["username"; "email"; "first_name"; "last_name";
                         "is_active"; "is_staff"]} : gset string) ∧
  "is_superuser" ∉ dom sample_payload.
Proof.
  apply (dashboard_update_payload_fields with_token
           (Resolved (Some (sample_user 1 "ann" true false))) sample_rows
           sample_edit (JNum 2) sample_payload).
  rewrite sample_edit_log.
  apply list_elem_of_further, list_elem_of_further, list_elem_of_here.
Defined.

(** A plain user types in a search box that is not there and logs out. *)
Lemma dashboard_no_list_request_witness :
  GetUsers (lit "bo") ∉
   log (session with_token (Resolved (Some (sample_user 2 "bob12" false false)))
          sample_rows [(ChangeSearch (lit "bo"), sample_rows);
                       (ClickLogout, sample_rows)]).
Proof.
  apply (dashboard_no_list_request_for_non_admin with_token
           (Resolved (Some (sample_user 2 "bob12" false false))) sample_rows).
  intros p Hp. injection Hp as <-. split; reflexivity.
Defined.

End DashboardProperties.

(** ** The session tokens in local storage *)

Section SessionStorage.
Import Js.

Lemma login_on_resolved_frame data ls k :
  ¬ session_key k → (Login.on_resolved data ls).1 !! k = ls !! k.
Proof.
  unfold session_key, Login.on_resolved, Login.setItem. intros Hk.
  repeat case_match; simpl; rewrite ?lookup_insert_ne; naive_solver.
Qed.

Lemma login_handleSubmit_frame w r k :
  ¬ session_key k →
  Login.localStorage (Login.handleSubmit w r).1 !! k = Login.localStorage w !! k.
Proof.
  intros Hk. unfold Login.handleSubmit.
  destruct (Login.validateForm _); simpl; [|done].
  destruct r as [data|e]; [|done].
  pose proof (login_on_resolved_frame data (Login.localStorage w) k Hk) as H.
  by destruct (Login.on_resolved data (Login.localStorage w)).
Qed.

Lemma cleared_lookup (ls : gmap string (list N)) k :
  delete "refreshToken" (delete "token" ls) !! k =
    if bool_decide (k = "token" ∨ k = "refreshToken") then None else ls !! k.
Proof.
  case_bool_decide as Hk.
  - destruct Hk as [->| ->]; by simplify_map_eq.
  - rewrite !lookup_delete_ne; naive_solver.
Qed.

(** C4, as stated, fails. The form is valid and the server answers the
    login with a [token] and a [refresh] value and no [access]. The login
    succeeds: the page moves on to the dashboard with the token in storage.
    The refresh token, present in the response, is stored nowhere. *)
Lemma login_refresh_dropped_counterexample :
  Login.validateForm (Login.form (Login.cell Login.bob_login)) = true ∧
  Login.navigates "/dashboard"
    (Login.handleSubmit Login.bob_login (Resolved Login.token_and_refresh)).2 = true ∧
  prop Login.token_and_refresh "refresh" = FVal (JStr (lit "rrr")) ∧
  Login.localStorage
    (Login.handleSubmit Login.bob_login (Resolved Login.token_and_refresh)).1 !! "token"
    = Some (lit "ttt") ∧
  Login.localStorage
    (Login.handleSubmit Login.bob_login (Resolved Login.token_and_refresh)).1 !! "refreshToken"
    = None.
Proof.
  split; [done|]. split; [done|]. split; [done|]. split; done.
Qed.

(** C4, amended. Local storage is written under the keys [token] and
    [refreshToken] only. A login succeeds, the page moving on to the
    dashboard, exactly when the response has an access token or, failing
    that, a [token] value. With an access token, that token is stored under
    [token], and the refresh token, when the response has one, under
    [refreshToken]. Without an access token, the [token] value is stored
    under [token] and [refreshToken] is left as it was, whatever the
    response holds under [refresh]. With neither, nothing is stored.
    Logging out removes both keys, and so does every profile fetch that
    fails; no other key is ever touched, by the login handler, by mounting
    the dashboard or by any event on it. *)
Theorem session_tokens_lifecycle :
  (∀ (w : Login.world) (data : jsbody),
     Login.validateForm (Login.form (Login.cell w)) = true →
     (Login.navigates "/dashboard" (Login.handleSubmit w (Resolved data)).2 = true ↔
        field_truthy (prop data "access") = true ∨
        field_truthy (prop data "token") = true) ∧
     (field_truthy (prop data "access") = true →
        Login.localStorage (Login.handleSubmit w (Resolved data)).1 !! "token"
          = Some (field_to_string (prop data "access")) ∧
        (field_truthy (prop data "refresh") = true →
           Login.localStorage (Login.handleSubmit w (Resolved data)).1 !! "refreshToken"
             = Some (field_to_string (prop data "refresh"))) ∧
        (field_truthy (prop data "refresh") = false →
           Login.localStorage (Login.handleSubmit w (Resolved data)).1 !! "refreshToken"
             = Login.localStorage w !! "refreshToken")) ∧
     (field_truthy (prop data "access") = false →
      field_truthy (prop data "token") = true →
        Login.localStorage (Login.handleSubmit w (Resolved data)).1 !! "token"
          = Some (field_to_string (prop data "token")) ∧
        Login.localStorage (Login.handleSubmit w (Resolved data)).1 !! "refreshToken"
          = Login.localStorage w !! "refreshToken") ∧
     (field_truthy (prop data "access") = false →
      field_truthy (prop data "token") = false →
        Login.localStorage (Login.handleSubmit w (Resolved data)).1
          = Login.localStorage w)) ∧
  (∀ (w : Login.world) (r : outcome jsbody) (k : string),
     ¬ session_key k →
     Login.localStorage (Login.handleSubmit w r).1 !! k = Login.localStorage w !! k) ∧
  (∀ (w : Dashboard.world) (ru : outcome (option (list Dashboard.User))),
     Dashboard.isLoading (Dashboard.cell w) = false →
     ∀ k, Dashboard.localStorage
            (Dashboard.exec (Dashboard.step Dashboard.ClickLogout ru) w) !! k
          = if bool_decide (session_key k) then None
            else Dashboard.localStorage w !! k) ∧
  (∀ (ls : gmap string (list N)) (r : outcome (option Dashboard.User))
     (ru : outcome (option (list Dashboard.User))),
     Dashboard.no_token (ls !! "token") = false →
     (∀ p, r ≠ Resolved (Some p)) →
     ∀ k, Dashboard.localStorage
            (Dashboard.exec (Dashboard.mount r ru) (Dashboard.start ls)) !! k
          = if bool_decide (session_key k) then None else ls !! k) ∧
  (∀ (w : Dashboard.world) (ev : Dashboard.event)
     (ru : outcome (option (list Dashboard.User))) (k : string),
     ¬ session_key k →
     Dashboard.localStorage (Dashboard.exec (Dashboard.step ev ru) w) !! k
       = Dashboard.localStorage w !! k).
Proof.
  split; [|split; [|split; [|split]]].
  - intros w data Hv. rewrite (handleSubmit_resolved w data Hv).
    cbn [fst snd Login.localStorage].
    unfold Login.on_resolved, Login.setItem.
    destruct (field_truthy (prop data "access")); simpl.
    + split; [split; [by left|done]|].
      split; [|split; intros; done].
      destruct (field_truthy (prop data "refresh")); simpl.
      * split; [|split; [intros _|done]]; by simplify_map_eq.
      * split; [|split; [done|intros _]]; by simplify_map_eq.
    + destruct (field_truthy (prop data "token")); simpl.
      * split; [split; [by right|done]|].
        split; [done|]. split; [|done].
        intros _ _. split; by simplify_map_eq.
      * split; [split; [done|by intros [?|?]]|].
        split; [done|]. split; done.
  - intros w r k Hk. by apply login_handleSubmit_frame.
  - intros w ru Hl k. unfold session_key. rewrite <- cleared_lookup.
    rewrite exec_step. simpl. rewrite Hl.
    destruct (exec_users_effect (Dashboard.cell w) ru
                (Dashboard.exec Dashboard.handleLogout w)) as [->|[_ ->]].
    + done.
    + by destruct (exec_fetchUsers ru (Dashboard.exec Dashboard.handleLogout w))
        as (us & ld & msg & ->).
  - intros ls r ru Ht Hr k. unfold session_key. rewrite <- cleared_lookup.
    by destruct (mount_failure ls r ru Ht Hr) as (-> & _).
  - intros w ev ru k Hk.
    destruct (step_summarised ev ru w) as [_ _ _ [-> | ->] _ _ _]; [done|].
    rewrite cleared_lookup. by rewrite bool_decide_eq_false_2.
Qed.

Lemma session_tokens_witness :
  Login.localStorage (Login.handleSubmit Login.bob_login (Resolved Login.both_tokens)).1 !! "token"
    = Some (lit "aaa") ∧
  Login.localStorage (Login.handleSubmit Login.bob_login (Resolved Login.both_tokens)).1 !! "refreshToken"
    = Some (lit "rrr").
Proof.
  destruct session_tokens_lifecycle as (Hlogin & _).
  destruct (Hlogin Login.bob_login Login.both_tokens eq_refl) as (_ & Ha & _).
  destruct (Ha eq_refl) as (H1 & H2 & _).
  split; [exact H1|exact (H2 eq_refl)].
Defined.

End SessionStorage.

(** * Further properties of the pages *)

(** ** Registration form: messages, success and rejection, typing *)

Section RegisterFurther.
Import Js Register.
#[local] Open Scope list_scope.

Lemma trimStart_nil s :
  trimStart s = [] ↔ Forall (fun c => is_white_space c = true) s.
Proof.
  induction s as [|c s IH]; simpl.
  - split; [constructor|done].
  - destruct (is_white_space c) eqn:Hc.
    + rewrite IH. split; [by constructor|]. by intros [_ ?]%Forall_cons.
    + split; [done|]. intros [? _]%Forall_cons. congruence.
Qed.

Lemma trimStart_white s :
  Forall (fun c => is_white_space c = true) (trimStart s) →
  Forall (fun c => is_white_space c = true) s.
Proof.
  induction s as [|c s IH]; simpl; [done|].
  destruct (is_white_space c) eqn:Hc; [|done].
  intros H. constructor; [done|by apply IH].
Qed.

(** [s.trim()] is empty exactly when [s] is made of white space only. *)
Lemma trim_nil s : trim s = [] ↔ Forall (fun c => is_white_space c = true) s.
Proof.
  unfold trim, trimEnd. split.
  - intros H. apply (f_equal reverse) in H. rewrite reverse_involutive in H.
    change (reverse []) with (@nil N) in H.
    apply trimStart_nil in H. rewrite Forall_reverse in H.
    by apply trimStart_white.
  - intros H. apply trimStart_nil in H. by rewrite H.
Qed.

Lemma email_part_not_blank a rest :
  email_part a → trim (a ++ rest) ≠ [].
Proof.
  intros [Hne Hall] Ht. apply trim_nil in Ht.
  destruct a as [|c a]; [done|].
  apply Forall_cons in Hall as [Hc _]. simpl in Ht.
  apply Forall_cons in Ht as [Hw _].
  unfold not_space_at in Hc. rewrite Hw in Hc. done.
Qed.

(** X1. The email field passes validation exactly when it reads
    local@domain.suffix: three parts, none empty and none holding white
    space or an at sign, joined by an at sign and a dot. *)
Theorem register_email_accepted_iff_shape (st : state) :
  errors (validateForm st).1 !! "email" = None ↔
  ∃ a b c, email (form st) = a ++ [64%N] ++ b ++ [46%N] ++ c ∧
           email_part a ∧ email_part b ∧ email_part c.
Proof.
  unfold validateForm. simpl. rewrite newErrors_lookup. simpl.
  rewrite fmap_None, check_email_none. unfold spec_email_ok.
  rewrite emailRegex_shape. split; [by intros [_ ?]|].
  intros (a & b & c & Heq & Ha & Hb & Hc). split; [|by exists a, b, c].
  rewrite Heq. by apply email_part_not_blank.
Qed.

(** X2. A username made of white space only, the empty one included, is
    reported as missing whatever its length, and the request is not sent. *)
Theorem register_blank_username_required (st : state) (r : outcome unit) :
  Forall (fun c => is_white_space c = true) (username (form st)) →
  errors (handleSubmit st r).1 !! "username"
    = Some (JStr (lit "Username is required")) ∧
  sends_register (handleSubmit st r).2 = false.
Proof.
  intros Hw. apply trim_nil in Hw.
  assert (¬ spec_valid (form st)) as Hbad by (by intros [[? _] _]).
  rewrite (handleSubmit_invalid st r Hbad). simpl. split; [|done].
  rewrite newErrors_lookup. simpl. unfold check_username.
  by rewrite bool_decide_eq_true_2.
Qed.

Lemma register_blank_username_witness :
  errors (handleSubmit (sample_form "    " "longenough1" "longenough1")
            (Resolved tt)).1 !! "username"
    = Some (JStr (lit "Username is required")).
Proof.
  apply (register_blank_username_required
           (sample_form "    " "longenough1" "longenough1") (Resolved tt)).
  repeat constructor.
Defined.

(** X3. A password that is not empty and has fewer than 8 characters, white
    space counted, is reported under [password] with the length message,
    and the request is not sent. *)
Theorem register_short_password_rejected (st : state) (r : outcome unit) :
  password (form st) ≠ [] →
  length (password (form st)) < 8 →
  errors (handleSubmit st r).1 !! "password"
    = Some (JStr (lit "At least 8 characters")) ∧
  sends_register (handleSubmit st r).2 = false.
Proof.
  intros Hne Hlen.
  assert (¬ spec_valid (form st)) as Hbad.
  { intros (_ & _ & [_ ?] & _). lia. }
  rewrite (handleSubmit_invalid st r Hbad). simpl. split; [|done].
  rewrite newErrors_lookup. simpl. unfold check_password.
  rewrite bool_decide_eq_false_2 by done.
  destruct (Nat.ltb_spec (length (password (form st))) 8); [done|lia].
Qed.

Lemma register_short_password_witness :
  errors (handleSubmit (sample_form "bob12" "short" "short") (Resolved tt)).1 !! "password"
    = Some (JStr (lit "At least 8 characters")).
Proof.
  apply (register_short_password_rejected
           (sample_form "bob12" "short" "short") (Resolved tt)).
  - vm_compute. discriminate.
  - vm_compute. lia.
Defined.

Lemma handleSubmit_valid st r :
  spec_valid (form st) →
  handleSubmit st r =
    match r with
    | Resolved _ =>
        ({| form := form st; errors := ∅; isLoading := false;
            success := lit "Account created! Redirecting to login..." |},
         [PreventDefault; CallRegister (form st); NavigateAfter "/login" 2000])
    | Rejected e =>
        ({| form := form st; errors := catch_errors e; isLoading := false;
            success := success st |},
         [PreventDefault; CallRegister (form st)])
    end.
Proof.
  intros Hv. apply validateForm_true in Hv.
  unfold handleSubmit. destruct (validateForm st) as [st1 ok] eqn:E.
  simpl in Hv. subst ok. simpl.
  unfold validateForm in E. injection E as <-. done.
Qed.

(** X4. A valid form whose request succeeds: the request carries the form
    as typed, optional names included; every error is cleared, the success
    message is set, the spinner is off, and the move to the login page is
    scheduled 2000 ms later. *)
Theorem register_success_path (st : state) :
  spec_valid (form st) →
  (handleSubmit st (Resolved tt)).2
    = [PreventDefault; CallRegister (form st); NavigateAfter "/login" 2000] ∧
  errors (handleSubmit st (Resolved tt)).1 = ∅ ∧
  success (handleSubmit st (Resolved tt)).1
    = lit "Account created! Redirecting to login..." ∧
  isLoading (handleSubmit st (Resolved tt)).1 = false ∧
  form (handleSubmit st (Resolved tt)).1 = form st.
Proof. intros Hv. by rewrite (handleSubmit_valid st _ Hv). Qed.

Lemma register_success_witness :
  (handleSubmit (sample_form "bob12" "longenough1" "longenough1") (Resolved tt)).2
    = [PreventDefault;
       CallRegister (form (sample_form "bob12" "longenough1" "longenough1"));
       NavigateAfter "/login" 2000].
Proof.
  apply (register_success_path (sample_form "bob12" "longenough1" "longenough1")).
  apply validateForm_true. vm_compute. reflexivity.
Defined.

(** The object [formatted] of the [catch] block, key by key. *)
Lemma formatted_fold (o : list (string * jsfield)) (acc : gmap string jsval) k :
  k ≠ "__proto__" →
  foldl (fun acc kv => assign kv.1 (format_field kv.2) acc) acc o !! k =
    match (list_to_map (reverse o) : gmap string jsfield) !! k with
    | Some f => Some (format_field f)
    | None => acc !! k
    end.
Proof.
  intros Hk. revert acc. induction o as [|[k' f] o IH]; intros acc; simpl.
  - by rewrite lookup_empty.
  - rewrite IH, reverse_cons, list_to_map_app. simpl.
    rewrite lookup_union.
    destruct ((list_to_map (reverse o) : gmap string jsfield) !! k)
      as [f'|] eqn:E; simpl.
    + by destruct ((<[k':=f]> ∅ : gmap string jsfield) !! k).
    + unfold assign. destruct (decide (k' = k)) as [->|Hne].
      * rewrite bool_decide_eq_false_2 by done. by rewrite !lookup_insert_eq.
      * rewrite lookup_insert_ne, lookup_empty by done.
        case_bool_decide; [done|]. by rewrite lookup_insert_ne.
Qed.

Lemma formatted_proto (o : list (string * jsfield)) (acc : gmap string jsval) :
  foldl (fun acc kv => assign kv.1 (format_field kv.2) acc) acc o !! "__proto__"
    = acc !! "__proto__".
Proof.
  revert acc. induction o as [|[k' f] o IH]; intros acc; simpl; [done|].
  rewrite IH. unfold assign. case_bool_decide as Hk; [done|].
  by rewrite lookup_insert_ne.
Qed.

Lemma formatted_object o k v :
  distinct_keys o →
  formatted (BObj o) !! k = Some v ↔
  k ≠ "__proto__" ∧ ∃ f, (k, f) ∈ o ∧ v = format_field f.
Proof.
  intros Hnd. unfold formatted. simpl.
  destruct (decide (k = "__proto__")) as [->|Hk].
  { rewrite formatted_proto, lookup_empty. split; [done|]. by intros [? _]. }
  rewrite formatted_fold, lookup_empty by done.
  assert (NoDup (reverse o).*1) as Hnd'.
  { unfold distinct_keys in Hnd. by rewrite fmap_reverse, reverse_Permutation. }
  assert (∀ f, (list_to_map (reverse o) : gmap string jsfield) !! k = Some f ↔
               (k, f) ∈ o) as Hl.
  { intros f. rewrite <- elem_of_list_to_map by done. apply elem_of_reverse. }
  destruct ((list_to_map (reverse o) : gmap string jsfield) !! k) as [f|].
  - split.
    + intros [= <-]. split; [done|]. exists f. split; [by apply Hl|done].
    + intros (_ & f' & Hin%Hl & ->). by injection Hin as ->.
  - split; [done|]. intros (_ & f' & Hin%Hl & _). done.
Qed.

(** X5. A valid form whose request is rejected: nothing is scheduled and
    the success message is untouched. With no response, or a response
    without a body, the only error is the connectivity message under
    [general]; with an object body, each of its fields is reported under
    its own key, a list of messages joined by a comma and a space, each
    element printed as [Array.prototype.join] prints it. A field named
    [__proto__] is the one exception: it is reported nowhere. *)
Theorem register_rejection_messages (st : state) (e : error) :
  spec_valid (form st) →
  (handleSubmit st (Rejected e)).2 = [PreventDefault; CallRegister (form st)] ∧
  success (handleSubmit st (Rejected e)).1 = success st ∧
  form (handleSubmit st (Rejected e)).1 = form st ∧
  (body_truthy (response_data e) = false →
     errors (handleSubmit st (Rejected e)).1
       = {[ "general" := JStr (lit "Unable to connect. Please try again.") ]}) ∧
  (∀ o, response e = Some (BObj o) → distinct_keys o →
     ∀ k v, errors (handleSubmit st (Rejected e)).1 !! k = Some v ↔
            k ≠ "__proto__" ∧
            ∃ f, (k, f) ∈ o ∧
                 v = match f with
                     | FArr l => JStr (join (lit ", ") l)
                     | FVal x => x
                     end).
Proof.
  intros Hv. rewrite (handleSubmit_valid st _ Hv). simpl.
  split; [done|]. split; [done|]. split; [done|]. unfold catch_errors. split.
  - by intros ->.
  - intros o Ho Hnd k v. unfold response_data. rewrite Ho. simpl.
    by rewrite formatted_object.
Qed.

Lemma register_rejection_witness :
  errors (handleSubmit (sample_form "bob12" "longenough1" "longenough1")
            (Rejected {| response := None |})).1
    = {[ "general" := JStr (lit "Unable to connect. Please try again.") ]}.
Proof.
  assert (spec_valid (form (sample_form "bob12" "longenough1" "longenough1"))) as Hv.
  { apply validateForm_true. vm_compute. reflexivity. }
  destruct (register_rejection_messages
              (sample_form "bob12" "longenough1" "longenough1")
              {| response := None |} Hv) as (_ & _ & _ & H & _).
  apply H. reflexivity.
Defined.

(** X6. Typing in an input sets that field and no other; the message under
    that input, if one was showing, is blanked, and the messages of the
    other inputs stay as they are. *)
Theorem register_typing_clears_own_error (i : input) (value : list N) (st : state) :
  get_field i (form (handleChange i value st)) = value ∧
  (∀ j, j ≠ i → get_field j (form (handleChange i value st)) = get_field j (form st)) ∧
  truthy (error_of (errors (handleChange i value st)) (input_name i)) = false ∧
  (∀ k, k ≠ input_name i →
        errors (handleChange i value st) !! k = errors st !! k).
Proof.
  split; [by destruct i|]. split.
  { intros j Hj. by destruct i, j. }
  unfold handleChange. simpl.
  destruct (truthy (error_of (errors st) (input_name i))) eqn:E.
  - split.
    + unfold error_of. by rewrite lookup_insert_eq.
    + intros k Hk. by rewrite lookup_insert_ne.
  - by split.
Qed.

End RegisterFurther.

(** ** Login form: validation, navigation, storage, typing *)

Section LoginFurther.
Import Js Login.





Lemma navigates_on_resolved data ls :
  navigates "/dashboard" (on_resolved data ls).2
    = field_truthy (prop data "access") || field_truthy (prop data "token").
Proof.
  unfold on_resolved.
  destruct (field_truthy (prop data "access")); [done|].
  by destruct (field_truthy (prop data "token")).
Qed.

Lemma navigates_handleSubmit w data :
  validateForm (form (cell w)) = true →
  navigates "/dashboard" (handleSubmit w (Resolved data)).2
    = field_truthy (prop data "access") || field_truthy (prop data "token").
Proof.
  intros Hv. rewrite (handleSubmit_resolved w data Hv).
  rewrite <- (navigates_on_resolved data (localStorage w)). done.
Qed.

(** X8. After a resolved login the router is sent to the dashboard exactly
    when the response had an [access] or a [token] value, and whenever it
    is sent there a token is in storage. *)
Theorem login_navigates_iff_token_stored (w : world) (data : jsbody) :
  validateForm (form (cell w)) = true →
  (navigates "/dashboard" (handleSubmit w (Resolved data)).2 = true ↔
     field_truthy (prop data "access") = true ∨
     field_truthy (prop data "token") = true) ∧
  (navigates "/dashboard" (handleSubmit w (Resolved data)).2 = true →
     is_Some (localStorage (handleSubmit w (Resolved data)).1 !! "token")).
Proof.
  intros Hv. rewrite (navigates_handleSubmit w data Hv), orb_true_iff.
  split; [done|].
  rewrite (handleSubmit_resolved w data Hv). cbn [fst localStorage].
  unfold on_resolved, setItem.
  destruct (field_truthy (prop data "access")); simpl.
  - intros _. destruct (field_truthy (prop data "refresh")); simpl.
    + rewrite lookup_insert_ne by done. rewrite lookup_insert_eq. by eexists.
    + rewrite lookup_insert_eq. by eexists.
  - destruct (field_truthy (prop data "token")); simpl.
    + intros _. rewrite lookup_insert_eq. by eexists.
    + by intros [?|?].
Qed.

Lemma login_navigates_witness :
  navigates "/dashboard" (handleSubmit bob_login (Resolved both_tokens)).2 = true.
Proof.
  destruct (login_navigates_iff_token_stored bob_login both_tokens eq_refl) as [H _].
  apply H. by left.
Defined.

(** X9. A response without [access] but with [token]: the token is stored
    under [token] and nothing else is written, so that a [refresh] value
    in the same response is dropped. *)
Theorem login_fallback_token (w : world) (data : jsbody) :
  validateForm (form (cell w)) = true →
  field_truthy (prop data "access") = false →
  field_truthy (prop data "token") = true →
  localStorage (handleSubmit w (Resolved data)).1
    = <["token" := field_to_string (prop data "token")]> (localStorage w) ∧
  localStorage (handleSubmit w (Resolved data)).1 !! "refreshToken"
    = localStorage w !! "refreshToken".
Proof.
  intros Hv Ha Ht. rewrite (handleSubmit_resolved w data Hv).
  unfold on_resolved, setItem. rewrite Ha, Ht. simpl.
  split; [done|]. by rewrite lookup_insert_ne.
Qed.

Lemma login_fallback_witness :
  localStorage
    (handleSubmit bob_login
       (Resolved (BObj [("token", FVal (JStr (lit "ttt")));
                        ("refresh", FVal (JStr (lit "rrr")))]))).1 !! "refreshToken"
  = None.
Proof.
  destruct (login_fallback_token bob_login
              (BObj [("token", FVal (JStr (lit "ttt")));
                     ("refresh", FVal (JStr (lit "rrr")))])
              eq_refl eq_refl eq_refl) as [_ H].
  exact H.
Defined.

(** X10. Submitting the login form never removes a key from local
    storage: a refresh token left by an earlier session stays when the new
    response brings none. *)
Theorem login_never_removes_keys (w : world) (r : outcome jsbody) (k : string) :
  is_Some (localStorage w !! k) →
  is_Some (localStorage (handleSubmit w r).1 !! k).
Proof.
  intros Hk. unfold handleSubmit.
  destruct (validateForm (form (cell w))); simpl; [|done].
  destruct r as [data|e]; [|done].
  assert (is_Some ((on_resolved data (localStorage w)).1 !! k)) as H.
  { unfold on_resolved, setItem. repeat case_match; simpl;
      rewrite ?lookup_insert_is_Some'; tauto. }
  by destruct (on_resolved data (localStorage w)).
Qed.

Lemma login_never_removes_witness :
  is_Some (localStorage
             (handleSubmit
                {| cell := cell bob_login;
                   localStorage := {[ "refreshToken" := lit "old" ]} |}
                (Resolved (BObj [("access", FVal (JStr (lit "aaa")))]))).1
           !! "refreshToken").
Proof.
  apply (login_never_removes_keys
           {| cell := cell bob_login;
              localStorage := {[ "refreshToken" := lit "old" ]} |}).
  by eexists.
Defined.

(** X11. Typing in an input sets that field and no other, and takes away
    both the message under that input and the banner of the last failed
    attempt; the message under the other input stays. *)
Theorem login_typing_clears_banner (i : input) (value : list N) (st : state) :
  get_field i (form (handleChange i value st)) = value ∧
  (∀ j, j ≠ i → get_field j (form (handleChange i value st)) = get_field j (form st)) ∧
  shown (handleChange i value st) (input_name i) = None ∧
  shown (handleChange i value st) "general" = None ∧
  (∀ k, k ≠ input_name i → k ≠ "general" →
        errors (handleChange i value st) !! k = errors st !! k).
Proof.
  split; [by destruct i|]. split.
  { intros j Hj. by destruct i, j. }
  assert (input_name i ≠ "general") as Hig by (by destruct i).
  unfold handleChange, shown. simpl.
  destruct (field_truthy (error_of (errors st) (input_name i))
            || field_truthy (error_of (errors st) "general")) eqn:Eb.
  - rewrite lookup_insert_ne, !lookup_insert_eq by done. simpl.
    split; [done|]. split; [done|].
    intros k Hk Hg. by rewrite !lookup_insert_ne.
  - apply orb_false_iff in Eb as [E1 E2]. unfold error_of in E1, E2.
    split; [|split; [|done]].
    + destruct (errors st !! input_name i); [|done]. simpl in E1. by rewrite E1.
    + destruct (errors st !! "general"); [|done]. simpl in E2. by rewrite E2.
Qed.

End LoginFurther.

(** ** Dashboard: sessions, refreshes, edits and deletions *)

Section DashboardFurther.
Import Js Dashboard.

Ltac run_cells :=
  lazy [exec bind ret modify emit getItem removeItem get_state
        handleLogout handleSearch handleEditClick handleEditChange
        handleEditSubmit handleDeleteUser fetchProfile fetchUsers
        drop_session setUser setIsLoading setIsAdmin setUsers setSearchQuery
        setUsersLoading setEditingUser setEditForm setMessage start initial
        cell localStorage log user isLoading isAdmin users searchQuery
        usersLoading editingUser editForm message fst snd negb].

Ltac open_cells w :=
  let st := fresh "st" in
  destruct w as [st ? ?]; destruct st;
  cbn [cell localStorage log user isLoading isAdmin users searchQuery
       usersLoading editingUser editForm message] in *.

Lemma exec_then {A B} (m : M A) (k : A → M B) (w : world) :
  exec (bind m k) w = exec (k (m w).1) (exec m w).
Proof. apply exec_bind. Qed.

(** [fetchUsers], cell by cell. *)
Lemma exec_fetchUsers_cells ru w :
  exec (fetchUsers ru) w =
    {| cell :=
         {| user := user (cell w); isLoading := isLoading (cell w);
            isAdmin := isAdmin (cell w);
            users := match ru with
                     | Resolved us => default [] us
                     | Rejected _ => users (cell w)
                     end;
            searchQuery := searchQuery (cell w); usersLoading := false;
            editingUser := editingUser (cell w); editForm := editForm (cell w);
            message := match ru with
                       | Resolved _ => message (cell w)
                       | Rejected _ =>
                           {| type := lit "error";
                              text := FVal (JStr (lit "Failed to load users.")) |}
                       end |};
       localStorage := localStorage w;
       log := log w ++ [GetUsers (searchQuery (cell w))] |}.
Proof. open_cells w. by destruct ru. Qed.

Lemma exec_users_effect_cells old ru w :
  exec (users_effect old ru) w =
    if bool_decide (isAdmin (cell w) = isAdmin old ∧
                    searchQuery (cell w) = searchQuery old)
    then w
    else if truthy (isAdmin (cell w)) then exec (fetchUsers ru) w else w.
Proof.
  unfold users_effect. rewrite exec_bind. simpl.
  case_bool_decide; [done|]. by destruct (truthy (isAdmin (cell w))).
Qed.

(** *** Without a token *)

Lemma mount_no_token ls r ru :
  no_token (ls !! "token") = true →
  exec (mount r ru) (start ls)
    = {| cell := initial; localStorage := ls; log := [Navigate "/login"] |}.
Proof.
  intros Ht. unfold mount. rewrite exec_then.
  assert (exec (fetchProfile r) (start ls)
            = {| cell := initial; localStorage := ls; log := [Navigate "/login"] |})
    as ->.
  { run_cells. by rewrite Ht. }
  rewrite exec_users_effect_cells. cbn [cell].
  by rewrite bool_decide_eq_true_2.
Qed.

Lemma handler_loading st ev ru : isLoading st = true → handler st ev ru = None.
Proof.
  intros Hl. destruct ev; simpl;
    unfold table_shown, admin_panel_shown, modal_shown; by rewrite Hl.
Qed.

Lemma session_no_token ls r ru evs :
  no_token (ls !! "token") = true →
  session ls r ru evs
    = {| cell := initial; localStorage := ls; log := [Navigate "/login"] |}.
Proof.
  intros Ht. rewrite session_unfold, (mount_no_token ls r ru Ht).
  induction evs as [|[ev ru'] evs IH]; [done|].
  simpl. rewrite exec_then, exec_step. by rewrite handler_loading.
Qed.

(** X12. Opened without a token in storage, the dashboard asks the router
    for the login page and does nothing else, whatever happens next: no
    request is ever made, storage is left alone, and the loading screen
    stays, so that no control is there to use. *)
Theorem dashboard_without_token_stays_out (ls : gmap string (list N))
    (r : outcome (option User)) (ru : outcome (option (list User)))
    (evs : list (event * outcome (option (list User)))) :
  no_token (ls !! "token") = true →
  log (session ls r ru evs) = [Navigate "/login"] ∧
  localStorage (session ls r ru evs) = ls ∧
  isLoading (cell (session ls r ru evs)) = true ∧
  (∀ ev ru', handler (cell (session ls r ru evs)) ev ru' = None).
Proof.
  intros Ht. rewrite (session_no_token ls r ru evs Ht). simpl.
  split; [done|]. split; [done|]. split; [done|].
  intros ev ru'. by apply handler_loading.
Qed.

Lemma dashboard_without_token_witness :
  log (session ∅ (Resolved (Some (sample_user 1 "ann" true false))) sample_rows
         [(ChangeSearch (lit "bo"), sample_rows); (ClickLogout, sample_rows)])
  = [Navigate "/login"].
Proof.
  apply (dashboard_without_token_stays_out ∅
           (Resolved (Some (sample_user 1 "ann" true false))) sample_rows).
  reflexivity.
Defined.

(** *** Whole sessions *)

(** X13. In a session whose fetched profile has neither [is_staff] nor
    [is_superuser] set, or in which no profile was fetched, no update
    request and no delete request is ever made. *)
Theorem dashboard_non_admin_never_manages (ls : gmap string (list N))
    (r : outcome (option User)) (ru : outcome (option (list User)))
    (evs : list (event * outcome (option (list User)))) :
  (∀ p, r = Resolved (Some p) →
        truthy (is_staff p) = false ∧ truthy (is_superuser p) = false) →
  ∀ c, c ∈ log (session ls r ru evs) →
       match c with
       | UpdateUser _ _ | DeleteUser _ => False
       | _ => True
       end.
Proof.
  intros Hnon. rewrite session_unfold.
  set (ok := fun c : call =>
    match c with UpdateUser _ _ | DeleteUser _ => False | _ => True end).
  set (P := fun w : world =>
    truthy (isAdmin (cell w)) = false ∧ editingUser (cell w) = None ∧
    Forall ok (log w)).
  assert (P (exec (run evs) (exec (mount r ru) (start ls)))) as (_ & _ & HP).
  2:{ intros c Hc. rewrite Forall_forall in HP. by apply HP. }
  apply run_invariant.
  - intros w ev ru' (Ha & He & Hl).
    destruct (step_summarised ev ru' w) as [_ Hsa _ _ (new & Hlog & Hnew) Hm _].
    split; [by rewrite Hsa|]. split.
    + destruct (editingUser (cell (exec (step ev ru') w))) eqn:E; [|done].
      destruct Hm as [[? Hs]|Ht]; [by eexists|congruence..].
    + rewrite Hlog. apply Forall_app. split; [done|].
      eapply Forall_impl; [exact Hnew|].
      intros [] Hc; simpl in *; try done.
      * destruct Hc as (_ & u & Hu & _). congruence.
      * destruct Hc as ([[_ Hadm]%andb_prop _]%andb_prop & _). congruence.
  - destruct (mount_summary ls r ru) as (Ha & He & Hl).
    assert (truthy (isAdmin (cell (exec (mount r ru) (start ls)))) = false) as Hf.
    { destruct (truthy (isAdmin (cell (exec (mount r ru) (start ls))))) eqn:E; [|done].
      destruct (Ha eq_refl) as (p & -> & Hp).
      destruct (Hnon p eq_refl) as [H1 H2].
      unfold admin_flags in Hp. by rewrite H1, H2 in Hp. }
    split; [done|]. split; [done|].
    eapply Forall_impl; [exact Hl|]. by intros [].
Qed.

Lemma dashboard_non_admin_witness :
  DeleteUser (JNum 3) ∉
    log (session with_token
           (Resolved (Some (sample_user 2 "bob12" false false)))
           sample_rows
           [(ClickEdit 0, sample_rows); (SubmitEdit (Resolved tt), sample_rows);
            (ClickDelete 2 true (Resolved tt), sample_rows)]).
Proof.
  intros Hin.
  apply (dashboard_non_admin_never_manages with_token
           (Resolved (Some (sample_user 2 "bob12" false false))) sample_rows)
    in Hin; [exact Hin|].
  intros p Hp. injection Hp as <-. split; reflexivity.
Defined.

(** X14. In no session is the caller's own id the target of a delete
    request. *)
Theorem dashboard_never_deletes_caller (ls : gmap string (list N)) (p : User)
    (ru : outcome (option (list User)))
    (evs : list (event * outcome (option (list User)))) :
  DeleteUser (id p) ∉ log (session ls (Resolved (Some p)) ru evs).
Proof.
  destruct (no_token (ls !! "token")) eqn:Ht.
  { rewrite (session_no_token ls _ ru evs Ht). simpl.
    intros Hin. apply list_elem_of_singleton in Hin. done. }
  rewrite session_unfold.
  set (P := fun w : world =>
    user (cell w) = Some p ∧ DeleteUser (id p) ∉ log w).
  assert (P (exec (run evs) (exec (mount (Resolved (Some p)) ru) (start ls))))
    as [_ HP]; [|done].
  apply run_invariant.
  - intros w ev ru' [Hu Hl].
    destruct (step_summarised ev ru' w) as [Hsu _ _ _ (new & Hlog & Hnew) _ _].
    split; [by rewrite Hsu|].
    rewrite Hlog, elem_of_app. intros [Hold|Hnw]; [done|].
    rewrite Forall_forall in Hnew. specialize (Hnew _ Hnw). simpl in Hnew.
    destruct Hnew as (_ & row & u & _ & Hid & Hd).
    unfold delete_button_shown, caller_id, strict_neq, strict_eq in Hd.
    rewrite Hu in Hd. apply andb_prop in Hd as [_ Hd].
    apply negb_true_iff, bool_decide_eq_false in Hd. congruence.
  - destruct (mount_profile ls p ru Ht) as (Hu & _).
    destruct (mount_summary ls (Resolved (Some p)) ru) as (_ & _ & Hl).
    split; [done|]. intros Hin. rewrite Forall_forall in Hl. by apply Hl in Hin.
Qed.

(** X15. The profile on the page is the one fetched on mounting, for the
    whole session: no edit, deletion, search or refresh of the user list
    replaces it, not even an edit of the caller's own row. *)
Theorem dashboard_profile_is_kept (ls : gmap string (list N)) (p : User)
    (ru : outcome (option (list User)))
    (evs : list (event * outcome (option (list User)))) :
  no_token (ls !! "token") = false →
  user (cell (session ls (Resolved (Some p)) ru evs)) = Some p.
Proof.
  intros Ht. rewrite session_unfold.
  apply (run_invariant (fun w => user (cell w) = Some p)).
  - intros w ev ru' Hu.
    destruct (step_summarised ev ru' w) as [Hsu _ _ _ _ _ _]. by rewrite Hsu.
  - by destruct (mount_profile ls p ru Ht) as (Hu & _).
Qed.

Lemma dashboard_profile_witness :
  user (cell (session with_token (Resolved (Some (sample_user 1 "ann" true false)))
                sample_rows
                [(ClickEdit 0, sample_rows);
                 (ChangeEdit InUsername (lit "anna") false, sample_rows);
                 (SubmitEdit (Resolved tt), sample_rows)]))
  = Some (sample_user 1 "ann" true false).
Proof.
  apply (dashboard_profile_is_kept with_token). reflexivity.
Defined.

Lemma mount_loading ls r ru :
  isLoading (cell (exec (mount r ru) (start ls))) = no_token (ls !! "token").
Proof.
  unfold mount. rewrite exec_then.
  assert (isLoading (cell (exec (fetchProfile r) (start ls)))
            = no_token (ls !! "token")) as H.
  { run_cells. destruct (no_token (ls !! "token")); [done|].
    by destruct r as [[p|]|e]. }
  rewrite exec_users_effect_cells. case_bool_decide; [done|].
  destruct (truthy _); [|done]. by rewrite exec_fetchUsers_cells.
Qed.

(** X16. The loading screen settles. On a page mounted with a token,
    [isLoading] is off once the profile request is answered, with the
    profile or with a failure, and no event turns it on again. It stays on
    exactly on a page mounted without a token. *)
Theorem dashboard_loading_screen_settles (ls : gmap string (list N))
    (r : outcome (option User)) (ru : outcome (option (list User)))
    (evs : list (event * outcome (option (list User)))) :
  isLoading (cell (session ls r ru evs)) = no_token (ls !! "token").
Proof.
  rewrite session_unfold.
  apply (run_invariant (fun w => isLoading (cell w) = no_token (ls !! "token"))).
  - intros w ev ru' H.
    destruct (step_summarised ev ru' w) as [_ _ Hsl _ _ _ _]. by rewrite Hsl.
  - apply mount_loading.
Qed.

(** *** No deletion without a prompt *)

Lemma prompted_weaken l : prompted false l = true → prompted true l = true.
Proof. destruct l as [|[] l]; simpl; try done. Qed.

Lemma prompted_app b l1 l2 :
  prompted b l1 = true → prompted false l2 = true →
  prompted b (l1 ++ l2) = true.
Proof.
  revert b. induction l1 as [|c l1 IH]; intros b H1 H2; simpl.
  - destruct b; [by apply prompted_weaken|done].
  - destruct c; simpl in *; try (by apply IH).
    apply andb_prop in H1 as [-> H1]. simpl. by apply IH.
Qed.

Lemma prompted_lookup l i target :
  prompted false l = true →
  l !! i = Some (DeleteUser target) →
  ∃ j q, i = S j ∧ l !! j = Some (Confirm q).
Proof.
  assert (∀ b, prompted b l = true → l !! i = Some (DeleteUser target) →
               (i = 0 ∧ b = true) ∨ ∃ j q, i = S j ∧ l !! j = Some (Confirm q))
    as Hgen.
  { revert i. induction l as [|c l IH]; intros i b Hp Hi; [done|].
    destruct i as [|i]; simpl in Hi.
    - injection Hi as ->. simpl in Hp. apply andb_prop in Hp as [-> _]. by left.
    - right. assert (∃ b', prompted b' l = true ∧
                           (b' = true → ∃ q, c = Confirm q)) as (b' & Hp' & Hc).
      { destruct c; simpl in Hp.
        - by exists false.
        - by exists false.
        - by exists false.
        - apply andb_prop in Hp as [_ Hp]. by exists false.
        - by exists false.
        - exists true. split; [done|]. by eexists. }
      destruct (IH i b' Hp' Hi) as [[-> Hb]|(j & q & -> & Hj)].
      + destruct (Hc Hb) as [q ->]. by exists 0, q.
      + by exists (S j), q. }
  intros Hp Hi. destruct (Hgen false Hp Hi) as [[_ ?]|?]; done.
Qed.

Lemma handler_prompted ev ru w h :
  handler (cell w) ev ru = Some h →
  prompted false (log w) = true → prompted false (log (exec h w)) = true.
Proof.
  intros Hh Hl. destruct ev; cbn [handler] in Hh;
    repeat match type of Hh with
           | (if ?b then _ else _) = _ => destruct b; [|try done]
           | match ?o with Some _ => _ | None => _ end = _ => destruct o; [|try done]
           end; simplify_eq; open_cells w; subst.
  - run_cells. by apply prompted_app.
  - by run_cells.
  - by run_cells.
  - destruct confirmed, r as [[]|e], ru as [us|e']; run_cells;
      rewrite <- ?app_assoc; by apply prompted_app.
  - by run_cells.
  - destruct editingUser0; destruct r as [[]|e], ru as [us|e']; run_cells;
      rewrite <- ?app_assoc; try done; by apply prompted_app.
  - by run_cells.
Qed.

Lemma step_prompted ev ru w :
  prompted false (log w) = true →
  prompted false (log (exec (step ev ru) w)) = true.
Proof.
  intros Hl. rewrite exec_step.
  destruct (handler (cell w) ev ru) as [h|] eqn:Hh; [|done].
  pose proof (handler_prompted ev ru w h Hh Hl) as Hl'.
  rewrite exec_users_effect_cells. case_bool_decide; [done|].
  destruct (truthy _); [|done].
  rewrite exec_fetchUsers_cells. simpl. by apply prompted_app.
Qed.

(** X17. No deletion without a prompt: in every session, each delete
    request in the log of calls comes immediately after a
    [window.confirm] prompt. *)
Theorem dashboard_delete_after_confirm (ls : gmap string (list N))
    (r : outcome (option User)) (ru : outcome (option (list User)))
    (evs : list (event * outcome (option (list User))))
    (i : nat) (target : jsval) :
  log (session ls r ru evs) !! i = Some (DeleteUser target) →
  ∃ j q, i = S j ∧ log (session ls r ru evs) !! j = Some (Confirm q).
Proof.
  apply prompted_lookup. rewrite session_unfold.
  apply (run_invariant (fun w => prompted false (log w) = true)).
  - intros w ev ru'. apply step_prompted.
  - destruct (mount_summary ls r ru) as (_ & _ & Hl).
    induction Hl as [|c l Hc _ IH]; [done|]. by destruct c.
Qed.

Lemma dashboard_delete_after_confirm_witness :
  ∃ j q, 3 = S j ∧
    log (session with_token (Resolved (Some (sample_user 1 "ann" true false)))
           sample_rows [(ClickDelete 1 true (Resolved tt), sample_rows)]) !! j
    = Some (Confirm q).
Proof.
  apply (dashboard_delete_after_confirm with_token
           (Resolved (Some (sample_user 1 "ann" true false))) sample_rows
           [(ClickDelete 1 true (Resolved tt), sample_rows)] 3 (JNum 2)).
  vm_compute. reflexivity.
Defined.

(** *** Single events *)

Lemma users_effect_same old ru w :
  isAdmin (cell w) = isAdmin old → searchQuery (cell w) = searchQuery old →
  exec (users_effect old ru) w = w.
Proof.
  intros Ha Hq. rewrite exec_users_effect_cells.
  by rewrite bool_decide_eq_true_2.
Qed.

(** X18. Typing in the search box of the admin panel stores the text, and
    asks for the user list, with exactly that text, when and only when it
    differs from the text that was there; typing never touches storage,
    the rows' editing state or the form of the modal. *)
Theorem dashboard_search_requests (w : world) (value : list N)
    (ru : outcome (option (list User))) :
  admin_panel_shown (cell w) = true →
  searchQuery (cell (exec (step (ChangeSearch value) ru) w)) = value ∧
  log (exec (step (ChangeSearch value) ru) w)
    = (log w ++ if bool_decide (value = searchQuery (cell w)) then []
                else [GetUsers value])%list ∧
  localStorage (exec (step (ChangeSearch value) ru) w) = localStorage w ∧
  editingUser (cell (exec (step (ChangeSearch value) ru) w)) = editingUser (cell w) ∧
  editForm (cell (exec (step (ChangeSearch value) ru) w)) = editForm (cell w).
Proof.
  intros Hadm. rewrite exec_step. cbn [handler]. rewrite Hadm.
  rewrite exec_users_effect_cells.
  apply andb_prop in Hadm as [_ Ht].
  open_cells w. run_cells.
  destruct (decide (value = searchQuery0)) as [->|Hne].
  - rewrite !bool_decide_eq_true_2 by done. by rewrite app_nil_r.
  - rewrite !bool_decide_eq_false_2 by (try done; by intros [_ ?]).
    rewrite Ht. by destruct ru.
Qed.

Lemma dashboard_search_witness :
  log (exec (step (ChangeSearch (lit "bo")) sample_rows)
         (session with_token (Resolved (Some (sample_user 1 "ann" true false)))
            sample_rows []))
  = [GetProfile; GetUsers []; GetUsers (lit "bo")].
Proof.
  destruct (dashboard_search_requests
              (session with_token (Resolved (Some (sample_user 1 "ann" true false)))
                 sample_rows [])
              (lit "bo") sample_rows eq_refl) as (_ & H & _).
  exact H.
Defined.

(** X19. What a refresh of the user list does: it asks for the list with
    the current search text and turns the table's spinner off; a list in
    the response replaces the rows, a response without one empties them,
    and a failed request keeps the rows on screen and posts an error
    message. Nothing else on the page changes. *)
Theorem dashboard_refresh_outcomes (w : world) (ru : outcome (option (list User))) :
  log (exec (fetchUsers ru) w) = (log w ++ [GetUsers (searchQuery (cell w))])%list ∧
  usersLoading (cell (exec (fetchUsers ru) w)) = false ∧
  (∀ us, ru = Resolved (Some us) → users (cell (exec (fetchUsers ru) w)) = us) ∧
  (ru = Resolved None → users (cell (exec (fetchUsers ru) w)) = []) ∧
  (∀ e, ru = Rejected e →
        users (cell (exec (fetchUsers ru) w)) = users (cell w) ∧
        message (cell (exec (fetchUsers ru) w))
          = {| type := lit "error";
               text := FVal (JStr (lit "Failed to load users.")) |}) ∧
  (∀ x, ru = Resolved x →
        message (cell (exec (fetchUsers ru) w)) = message (cell w)) ∧
  localStorage (exec (fetchUsers ru) w) = localStorage w ∧
  editingUser (cell (exec (fetchUsers ru) w)) = editingUser (cell w) ∧
  editForm (cell (exec (fetchUsers ru) w)) = editForm (cell w) ∧
  searchQuery (cell (exec (fetchUsers ru) w)) = searchQuery (cell w).
Proof.
  rewrite exec_fetchUsers_cells. simpl.
  repeat split; try done; by intros; subst.
Qed.


(** *** Editing a user *)

Lemma step_without_effect ev ru w h :
  handler (cell w) ev ru = Some h →
  isAdmin (cell (exec h w)) = isAdmin (cell w) →
  searchQuery (cell (exec h w)) = searchQuery (cell w) →
  exec (step ev ru) w = exec h w.
Proof.
  intros Hh Ha Hq. rewrite exec_step, Hh. by apply users_effect_same.
Qed.

Lemma handler_ClickEdit w row u ru :
  table_shown (cell w) = true → users (cell w) !! row = Some u →
  handler (cell w) (ClickEdit row) ru = Some (handleEditClick u).
Proof. intros Ht Hu. cbn [handler]. by rewrite Ht, Hu. Qed.

Lemma step_ClickEdit w row u ru :
  table_shown (cell w) = true → users (cell w) !! row = Some u →
  exec (step (ClickEdit row) ru) w = exec (handleEditClick u) w.
Proof.
  intros Ht Hu.
  apply (step_without_effect _ _ _ _ (handler_ClickEdit w row u ru Ht Hu));
    by open_cells w.
Qed.

Lemma handleEditClick_form u w i :
  editForm (cell (exec (handleEditClick u) w)) !! input_name i
    = Some (row_field i u).
Proof. open_cells w. run_cells. destruct i; by simplify_map_eq. Qed.

Lemma step_SubmitEdit w r ru :
  modal_shown (cell w) = true →
  exec (step (SubmitEdit r) ru) w = exec (handleEditSubmit r ru) w.
Proof.
  intros Hm.
  assert (handler (cell w) (SubmitEdit r) ru = Some (handleEditSubmit r ru)) as Hh.
  { cbn [handler]. by rewrite Hm. }
  apply (step_without_effect _ _ _ _ Hh); open_cells w;
    destruct editingUser0, r as [[]|e], ru as [us|e']; by run_cells.
Qed.

(** X21. Opening the edit modal on a row and saving without touching the
    form sends one update request, to that row's id, whose body holds for
    each of the six inputs the value the row had; the user list is asked
    for again only when the update went through. *)
Theorem dashboard_untouched_edit_resends_row (w : world) (row : nat) (u : User)
    (r : outcome unit) (ru1 ru2 : outcome (option (list User))) :
  table_shown (cell w) = true →
  users (cell w) !! row = Some u →
  ∃ body,
    log (exec (step (SubmitEdit r) ru2) (exec (step (ClickEdit row) ru1) w))
      = (log w ++ UpdateUser (id u) body ::
           match r with
           | Resolved _ => [GetUsers (searchQuery (cell w))]
           | Rejected _ => []
           end)%list ∧
    ∀ i, body !! input_name i = Some (row_field i u).
Proof.
  intros Ht Hu. rewrite (step_ClickEdit w row u ru1 Ht Hu).
  exists (editForm (cell (exec (handleEditClick u) w))).
  split; [|apply handleEditClick_form].
  rewrite step_SubmitEdit.
  - apply andb_prop in Ht as [_ _]. open_cells w.
    destruct r as [[]|e], ru2 as [us|e']; run_cells; by rewrite <- ?app_assoc.
  - apply andb_prop in Ht as [[Hl _]%andb_prop _]. open_cells w.
    destruct isLoading0; [done|]. reflexivity.
Qed.

Lemma dashboard_untouched_edit_witness :
  ∃ body,
    log (exec (step (SubmitEdit (Resolved tt)) sample_rows)
           (exec (step (ClickEdit 1) sample_rows)
              (session with_token (Resolved (Some (sample_user 1 "ann" true false)))
                 sample_rows [])))
      = [GetProfile; GetUsers []; UpdateUser (JNum 2) body; GetUsers []] ∧
    ∀ i, body !! input_name i = Some (row_field i (sample_user 2 "bob12" false false)).
Proof.
  apply (dashboard_untouched_edit_resends_row
           (session with_token (Resolved (Some (sample_user 1 "ann" true false)))
              sample_rows [])
           1 (sample_user 2 "bob12" false false) (Resolved tt)
           sample_rows sample_rows); reflexivity.
Defined.

(** X22. A change in the edit form writes under the name of its input and
    nowhere else: a text input stores the text typed, a checkbox stores
    whether it is checked. No request is made and the modal stays open on
    the same user. *)
Theorem dashboard_edit_change (w : world) (i : edit_input) (value : list N)
    (checked : bool) (ru : outcome (option (list User))) :
  modal_shown (cell w) = true →
  editForm (cell (exec (step (ChangeEdit i value checked) ru) w)) !! input_name i
    = Some (match i with
            | InIsActive | InIsStaff => JBool checked
            | _ => JStr value
            end) ∧
  (∀ k, k ≠ input_name i →
        editForm (cell (exec (step (ChangeEdit i value checked) ru) w)) !! k
          = editForm (cell w) !! k) ∧
  log (exec (step (ChangeEdit i value checked) ru) w) = log w ∧
  editingUser (cell (exec (step (ChangeEdit i value checked) ru) w))
    = editingUser (cell w).
Proof.
  intros Hm.
  assert (handler (cell w) (ChangeEdit i value checked) ru
            = Some (handleEditChange (input_name i) (input_type i) value checked))
    as Hh.
  { cbn [handler]. by rewrite Hm. }
  rewrite (step_without_effect _ _ _ _ Hh); [|by open_cells w..].
  open_cells w. run_cells. split; [|split; [|done]].
  - rewrite lookup_insert_eq. by destruct i.
  - intros k Hk. by rewrite lookup_insert_ne.
Qed.

Lemma dashboard_edit_change_witness :
  editForm
    (cell (exec (step (ChangeEdit InIsStaff (lit "on") true) sample_rows)
             (exec (step (ClickEdit 1) sample_rows)
                (session with_token
                   (Resolved (Some (sample_user 1 "ann" true false)))
                   sample_rows [])))) !! "is_staff"
  = Some (JBool true).
Proof.
  apply (dashboard_edit_change
           (exec (step (ClickEdit 1) sample_rows)
              (session with_token
                 (Resolved (Some (sample_user 1 "ann" true false)))
                 sample_rows []))
           InIsStaff (lit "on") true sample_rows).
  reflexivity.
Defined.

(** X23. Saving the edit form sends the form as it stands to the id of
    the user being edited. When the update goes through, the modal closes
    and the user list is asked for again; when it is rejected, the modal
    stays open on the same user with the form intact, the rows are left
    alone, no further request is made and an error message is posted. *)
Theorem dashboard_submit_outcomes (w : world) (u : User) (r : outcome unit)
    (ru : outcome (option (list User))) :
  modal_shown (cell w) = true →
  editingUser (cell w) = Some u →
  match r with
  | Resolved _ =>
      log (exec (step (SubmitEdit r) ru) w)
        = (log w ++ [UpdateUser (id u) (editForm (cell w));
                     GetUsers (searchQuery (cell w))])%list ∧
      editingUser (cell (exec (step (SubmitEdit r) ru) w)) = None
  | Rejected e =>
      log (exec (step (SubmitEdit r) ru) w)
        = (log w ++ [UpdateUser (id u) (editForm (cell w))])%list ∧
      editingUser (cell (exec (step (SubmitEdit r) ru) w)) = Some u ∧
      editForm (cell (exec (step (SubmitEdit r) ru) w)) = editForm (cell w) ∧
      users (cell (exec (step (SubmitEdit r) ru) w)) = users (cell w) ∧
      type (message (cell (exec (step (SubmitEdit r) ru) w))) = lit "error" ∧
      text (message (cell (exec (step (SubmitEdit r) ru) w))) = update_error e
  end.
Proof.
  intros Hm Hu. rewrite (step_SubmitEdit w r ru Hm).
  open_cells w. subst.
  destruct r as [[]|e], ru as [us|e']; run_cells; by rewrite <- ?app_assoc.
Qed.

Lemma dashboard_submit_witness :
  editingUser
    (cell (exec (step (SubmitEdit (Rejected {| response := None |})) sample_rows)
             (exec (step (ClickEdit 1) sample_rows)
                (session with_token
                   (Resolved (Some (sample_user 1 "ann" true false)))
                   sample_rows []))))
  = Some (sample_user 2 "bob12" false false).
Proof.
  pose proof (dashboard_submit_outcomes
           (exec (step (ClickEdit 1) sample_rows)
              (session with_token
                 (Resolved (Some (sample_user 1 "ann" true false)))
                 sample_rows []))
           (sample_user 2 "bob12" false false)
           (Rejected {| response := None |}) sample_rows eq_refl eq_refl) as H.
  cbv beta iota in H. destruct H as (_ & H & _). exact H.
Defined.

(** *** Deleting a user *)

Lemma step_ClickDelete w row u confirmed r ru :
  table_shown (cell w) = true → users (cell w) !! row = Some u →
  delete_button_shown (cell w) u = true →
  exec (step (ClickDelete row confirmed r) ru) w
    = exec (handleDeleteUser u confirmed r ru) w.
Proof.
  intros Ht Hu Hd.
  assert (handler (cell w) (ClickDelete row confirmed r) ru
            = Some (handleDeleteUser u confirmed r ru)) as Hh.
  { cbn [handler]. by rewrite Ht, Hu, Hd. }
  apply (step_without_effect _ _ _ _ Hh); open_cells w;
    destruct confirmed, r as [[]|e], ru as [us|e']; by run_cells.
Qed.

(** X24. A click on the delete button of a row first asks for
    confirmation, naming the row's user. Declined, nothing else happens:
    the page and storage are as before and no request is made. Confirmed,
    one delete request goes to the row's id; the user list is asked for
    again when the deletion went through, and when it was rejected the
    rows stay and an error message is posted. *)
Theorem dashboard_delete_outcomes (w : world) (row : nat) (u : User)
    (confirmed : bool) (r : outcome unit) (ru : outcome (option (list User))) :
  table_shown (cell w) = true →
  users (cell w) !! row = Some u →
  delete_button_shown (cell w) u = true →
  match confirmed, r with
  | false, _ =>
      exec (step (ClickDelete row confirmed r) ru) w
        = {| cell := cell w; localStorage := localStorage w;
             log := log w ++ [Confirm (delete_question u)] |}
  | true, Resolved _ =>
      log (exec (step (ClickDelete row confirmed r) ru) w)
        = (log w ++ [Confirm (delete_question u); DeleteUser (id u);
                     GetUsers (searchQuery (cell w))])%list
  | true, Rejected e =>
      log (exec (step (ClickDelete row confirmed r) ru) w)
        = (log w ++ [Confirm (delete_question u); DeleteUser (id u)])%list ∧
      users (cell (exec (step (ClickDelete row confirmed r) ru) w)) = users (cell w) ∧
      type (message (cell (exec (step (ClickDelete row confirmed r) ru) w)))
        = lit "error" ∧
      text (message (cell (exec (step (ClickDelete row confirmed r) ru) w)))
        = delete_error e
  end.
Proof.
  intros Ht Hu Hd. rewrite (step_ClickDelete w row u confirmed r ru Ht Hu Hd).
  clear Ht Hu Hd. open_cells w. unfold delete_question.
  destruct confirmed, r as [[]|e], ru as [us|e']; run_cells;
    by rewrite <- ?app_assoc.
Qed.

Lemma dashboard_delete_outcomes_witness :
  exec (step (ClickDelete 1 false (Resolved tt)) sample_rows)
       (session with_token (Resolved (Some (sample_user 1 "ann" true false)))
          sample_rows [])
  = {| cell := cell (session with_token
                       (Resolved (Some (sample_user 1 "ann" true false)))
                       sample_rows []);
       localStorage := with_token;
       log := [GetProfile; GetUsers [];
               Confirm (delete_question (sample_user 2 "bob12" false false))] |}.
Proof.
  apply (dashboard_delete_outcomes
           (session with_token (Resolved (Some (sample_user 1 "ann" true false)))
              sample_rows [])
           1 (sample_user 2 "bob12" false false) false (Resolved tt) sample_rows);
    reflexivity.
Defined.

End DashboardFurther.

(** ** From one page to the next *)

Section Journeys.
Import Js.

Lemma mount_asks_profile ls r ru :
  Dashboard.no_token (ls !! "token") = false →
  head (Dashboard.log (Dashboard.exec (Dashboard.mount r ru) (Dashboard.start ls)))
    = Some Dashboard.GetProfile.
Proof.
  intros Ht. unfold Dashboard.mount. rewrite exec_then.
  assert (head (Dashboard.log
                  (Dashboard.exec (Dashboard.fetchProfile r) (Dashboard.start ls)))
            = Some Dashboard.GetProfile) as H.
  { unfold Dashboard.fetchProfile, Dashboard.exec, Dashboard.bind,
      Dashboard.getItem, Dashboard.start. simpl. rewrite Ht.
    by destruct r as [[p|]|e]. }
  rewrite exec_users_effect_cells. case_bool_decide; [done|].
  destruct (truthy _); [|done].
  rewrite exec_fetchUsers_cells. simpl.
  destruct (Dashboard.log
              (Dashboard.exec (Dashboard.fetchProfile r) (Dashboard.start ls)));
    [done|by simpl in *].
Qed.

(** X25. From login to dashboard: when the login response carries a
    non-empty string as [access], the dashboard mounted on the storage the
    login left finds the token and asks for the profile first, instead of
    going back to the login page. *)
Theorem login_then_dashboard_asks_profile (w : Login.world) (data : jsbody)
    (token : list N) (r : outcome (option Dashboard.User))
    (ru : outcome (option (list Dashboard.User))) :
  Login.validateForm (Login.form (Login.cell w)) = true →
  prop data "access" = FVal (JStr token) →
  token ≠ [] →
  Login.localStorage (Login.handleSubmit w (Resolved data)).1 !! "token"
    = Some token ∧
  head (Dashboard.log
          (Dashboard.exec (Dashboard.mount r ru)
             (Dashboard.start
                (Login.localStorage (Login.handleSubmit w (Resolved data)).1))))
    = Some Dashboard.GetProfile.
Proof.
  intros Hv Ha Hne.
  assert (Login.localStorage (Login.handleSubmit w (Resolved data)).1 !! "token"
            = Some token) as Hs.
  { rewrite (handleSubmit_resolved w data Hv). unfold Login.on_resolved, Login.setItem.
    rewrite Ha. simpl. rewrite bool_decide_eq_false_2 by done. simpl.
    destruct (field_truthy (prop data "refresh")); by simplify_map_eq. }
  split; [done|]. apply mount_asks_profile. rewrite Hs. simpl.
  by rewrite bool_decide_eq_false_2.
Qed.

Lemma login_then_dashboard_witness :
  head (Dashboard.log
          (Dashboard.exec
             (Dashboard.mount (Rejected {| response := None |})
                (Rejected {| response := None |}))
             (Dashboard.start
                (Login.localStorage
                   (Login.handleSubmit Login.bob_login
                      (Resolved Login.both_tokens)).1))))
    = Some Dashboard.GetProfile.
Proof.
  apply (login_then_dashboard_asks_profile Login.bob_login Login.both_tokens
           (lit "aaa")); [reflexivity|reflexivity|discriminate].
Defined.

(** X26. After logging out, a dashboard opened again on the storage that
    is left makes no request at all and asks for the login page, whatever
    other keys the storage holds. *)
Theorem logout_then_dashboard_stays_out (w : Dashboard.world)
    (ru ru' : outcome (option (list Dashboard.User)))
    (r : outcome (option Dashboard.User))
    (evs : list (Dashboard.event * outcome (option (list Dashboard.User)))) :
  Dashboard.isLoading (Dashboard.cell w) = false →
  Dashboard.log
    (Dashboard.session
       (Dashboard.localStorage
          (Dashboard.exec (Dashboard.step Dashboard.ClickLogout ru) w))
       r ru' evs)
  = [Dashboard.Navigate "/login"].
Proof.
  intros Hl. rewrite session_no_token; [done|].
  rewrite exec_step. cbn [Dashboard.handler]. rewrite Hl.
  rewrite users_effect_same.
  - unfold Dashboard.handleLogout, Dashboard.exec, Dashboard.bind,
      Dashboard.removeItem, Dashboard.emit. simpl.
    by rewrite lookup_delete_ne, lookup_delete_eq.
  - done.
  - done.
Qed.

Lemma logout_then_dashboard_witness :
  Dashboard.log
    (Dashboard.session
       (Dashboard.localStorage
          (Dashboard.exec (Dashboard.step Dashboard.ClickLogout Dashboard.sample_rows)
             (Dashboard.session Dashboard.with_token
                (Resolved (Some (Dashboard.sample_user 1 "ann" true false)))
                Dashboard.sample_rows [])))
       (Resolved (Some (Dashboard.sample_user 1 "ann" true false)))
       Dashboard.sample_rows [])
  = [Dashboard.Navigate "/login"].
Proof.
  apply (logout_then_dashboard_stays_out
           (Dashboard.session Dashboard.with_token
              (Resolved (Some (Dashboard.sample_user 1 "ann" true false)))
              Dashboard.sample_rows [])).
  reflexivity.
Defined.

End Journeys.
